(** * CMR digital consignment notes: lifecycle engine, photo upload and
      PDF export.

    A shallow embedding of
      - the status predicates [isCompleted] and [isInProgress]
        (lib/utils/status-helpers.ts),
      - the four lifecycle actions behind [performCmrAction]
        (lib/utils/cmr-actions.ts),
      - [uploadCmrPhoto], the photo upload with its clean-up,
      - [generateCmrPdf], the paginated export (lib/utils/pdf-generator.ts),
    followed by the properties the specification states about them.

    The second part embeds the code around these: the badge helpers, the
    listing and deletion of photos, the photo section's file input, the
    capture and lookup of signatures, what the document page lets the
    user trigger, the dashboard lists and the onboarding checks, with
    properties read off that code.

    The hosted database, the object storage, the network and the jsPDF
    document object are collaborators of the program.  They are modelled
    at the level of the calls the TypeScript code makes on them. *)

From Stdlib Require Import QArith Ascii.
From stdpp Require Import gmap strings list fin_maps pretty.
From Stdlib Require Import Lqa.
From stdpp Require Import sorting.

Local Open Scope string_scope.
Local Open Scope list_scope.
Local Open Scope Z_scope.

(* ===================================================================== *)
(** ** Table rows *)
(* ===================================================================== *)

(** Values a JSON metadata bag holds in this program. *)
Inductive Json : Type :=
| JString (s : string)
| JBool (b : bool).

(** [cmr_events]: one row per lifecycle transition. *)
Module CmrEvent.
Record t : Type := mk {
  id : string;
  cmr_id : string;
  user_id : string;
  type : string;
  metadata : list (string * Json);
  created_at : string;
}.
End CmrEvent.

(** [cmr_signatures]: at most one row per (document, party). *)
Module CmrSignature.
Record t : Type := mk {
  id : string;
  cmr_id : string;
  user_id : string;
  party_type : string;
  signer_name : option string;
  signer_role : option string;
  signer_email : option string;
  storage_path : string;
  created_at : string;
}.
End CmrSignature.

(** [cmr_reserves]: discrepancy notes of either side. *)
Module CmrReserve.
Record t : Type := mk {
  id : string;
  cmr_id : string;
  user_id : string;
  side : string;
  reserve_type : string;
  comment : option string;
  photo_storage_path : option string;
  created_at : string;
}.
End CmrReserve.

(** [cmr_photos]: general attachments. *)
Module CmrPhoto.
Record t : Type := mk {
  id : string;
  cmr_id : string;
  user_id : string;
  storage_path : string;
  created_at : string;
}.
End CmrPhoto.

(** [profiles]: the carrier identity printed in box 2. *)
Module Profile.
Record t : Type := mk {
  id : string;
  full_name : option string;
  company_name : option string;
  company_address : option string;
  company_siren : option string;
  company_siret : option string;
  company_naf : option string;
  phone : option string;
  billing_email : option string;
}.
End Profile.

(** [cmr_documents]: the consignment note.  Nullable columns are [option];
    numbers are rationals. *)
Module CmrDocument.
Record t : Type := mk {
  id : string;
  user_id : string;
  cmr_number : option string;
  is_international : option bool;
  status : string;
  shipper_name : string;
  shipper_address : option string;
  consignee_name : string;
  consignee_address : option string;
  principal_name : option string;
  principal_address : option string;
  delivery_carrier_name : option string;
  delivery_carrier_address : option string;
  loading_place : string;
  loading_date : string;
  loading_arrival_at : option string;
  loading_departure_at : option string;
  loading_extra_services : option string;
  delivery_place : string;
  requested_delivery_at : option string;
  delivery_arrival_at : option string;
  delivery_departure_at : option string;
  delivery_extra_services : option string;
  goods_description : option string;
  packages_count : option Q;
  packaging_type : option string;
  weight_kg : option Q;
  declared_value : option Q;
  declared_value_currency : option string;
  goods_marks_numbers : option string;
  is_dangerous_goods : option bool;
  dangerous_goods_class : option string;
  dangerous_goods_un_number : option string;
  dangerous_goods_adr_letter : option string;
  is_controlled_temperature : option bool;
  temperature_min : option Q;
  temperature_max : option Q;
  pallets_80_120 : option Q;
  pallets_100_120 : option Q;
  pallets_europe : option Q;
  pallets_others : option Q;
  pallets_bacs : option Q;
  pallets_rolls : option Q;
  pallets_origin : option string;
  pallets_loaded_at_shipper : option Q;
  pallets_returned_to_shipper : option Q;
  pallets_delivered_to_consignee : option Q;
  pallets_returned_by_consignee : option Q;
  pallets_deposited_at : option string;
  pallets_final_balance : option string;
  attached_documents : option string;
  instructions : option string;
  customs_instructions : option string;
  cash_on_delivery_amount : option Q;
  cash_on_delivery_currency : option string;
  freight_total_amount : option Q;
  freight_currency : option string;
  freight_terms : option string;
}.

(** The row after [update({ status: s })]: every other column is kept. *)
Definition with_status (s : string) (d : t) : t :=
  mk (id d) (user_id d) (cmr_number d) (is_international d) s
     (shipper_name d) (shipper_address d) (consignee_name d)
     (consignee_address d) (principal_name d) (principal_address d)
     (delivery_carrier_name d) (delivery_carrier_address d)
     (loading_place d) (loading_date d) (loading_arrival_at d)
     (loading_departure_at d) (loading_extra_services d)
     (delivery_place d) (requested_delivery_at d) (delivery_arrival_at d)
     (delivery_departure_at d) (delivery_extra_services d)
     (goods_description d) (packages_count d) (packaging_type d)
     (weight_kg d) (declared_value d) (declared_value_currency d)
     (goods_marks_numbers d) (is_dangerous_goods d)
     (dangerous_goods_class d) (dangerous_goods_un_number d)
     (dangerous_goods_adr_letter d) (is_controlled_temperature d)
     (temperature_min d) (temperature_max d) (pallets_80_120 d)
     (pallets_100_120 d) (pallets_europe d) (pallets_others d)
     (pallets_bacs d) (pallets_rolls d) (pallets_origin d)
     (pallets_loaded_at_shipper d) (pallets_returned_to_shipper d)
     (pallets_delivered_to_consignee d) (pallets_returned_by_consignee d)
     (pallets_deposited_at d) (pallets_final_balance d)
     (attached_documents d) (instructions d) (customs_instructions d)
     (cash_on_delivery_amount d) (cash_on_delivery_currency d)
     (freight_total_amount d) (freight_currency d) (freight_terms d).
End CmrDocument.

(* ===================================================================== *)
(** ** status-helpers.ts *)
(* ===================================================================== *)

Module StatusHelpers.

(** The [CmrStatus] union type. *)
Inductive CmrStatus : Type :=
| draft
| ready_to_load
| loading
| in_transit
| ready_to_deliver
| completed
| completed_with_reserves.

(** The string literal each member of the union stands for. *)
Definition literal (s : CmrStatus) : string :=
  match s with
  | draft => "draft"
  | ready_to_load => "ready_to_load"
  | loading => "loading"
  | in_transit => "in_transit"
  | ready_to_deliver => "ready_to_deliver"
  | completed => "completed"
  | completed_with_reserves => "completed_with_reserves"
  end.

Definition all_statuses : list CmrStatus :=
  [draft; ready_to_load; loading; in_transit; ready_to_deliver;
   completed; completed_with_reserves].

Definition IN_PROGRESS_STATUSES : list string :=
  ["draft"; "ready_to_load"; "loading"; "in_transit"; "ready_to_deliver"].

Definition COMPLETED_STATUSES : list string :=
  ["completed"; "completed_with_reserves"].

(** [Array.prototype.includes] on an array of strings. *)
Definition includes (l : list string) (s : string) : bool :=
  existsb (String.eqb s) l.

Definition isCompleted (status : string) : bool :=
  includes COMPLETED_STATUSES status.

Definition isInProgress (status : string) : bool :=
  includes IN_PROGRESS_STATUSES status.

End StatusHelpers.

(* ===================================================================== *)
(** ** The hosted services, as the client sees them *)
(* ===================================================================== *)

Module Supabase.

(** The [error] member of a reply ([PostgrestError], [StorageError]). *)
Record ServiceError : Type := { message : string }.

(** What a JavaScript [throw] carries in this program: an error object
    received from the service and thrown as it is, or [new Error(msg)]. *)
Inductive Thrown : Type :=
| ThrowService (e : ServiceError)
| ThrowError (msg : string).

(** The [{ data, error }] pair every client call resolves to. *)
Record Response (A : Type) : Type := { data : option A; error : option ServiceError }.
Arguments data {A} _.
Arguments error {A} _.

(** A binary held by the object storage. *)
Record File : Type := { name : string; bytes : string }.

Record Db : Type := {
  cmr_documents : gmap string CmrDocument.t;
  cmr_events : list CmrEvent.t;
  cmr_signatures : list CmrSignature.t;
  cmr_reserves : list CmrReserve.t;
  cmr_photos : list CmrPhoto.t;
}.

(** The requests sent to the services, in the order they are sent. *)
Inductive Call : Type :=
| Select (table : string) (filters : list (string * string))
| Insert (table : string)
| Update (table : string) (filters : list (string * string))
| Upload (bucket path : string)
| Remove (bucket : string) (paths : list string).

(** How the service answers a request: it refuses it (network,
    authorization or constraint failure, no effect), or it performs it;
    for an insert it then fills the columns that have a default. *)
Inductive Reply : Type :=
| Refused (e : ServiceError)
| Performed (generated_id generated_created_at : string).

Record World : Type := {
  db : Db;
  objects : gmap (string * string) File;   (* (bucket, path) ↦ binary *)
  replies : nat → Reply;                   (* answer to the n-th request *)
  calls : list Call;                       (* requests sent so far *)
  supabaseUrl : string;
}.

Definition set_db (f : Db → Db) (w : World) : World :=
  {| db := f (db w); objects := objects w; replies := replies w;
     calls := calls w; supabaseUrl := supabaseUrl w |}.

Definition set_objects
    (f : gmap (string * string) File → gmap (string * string) File)
    (w : World) : World :=
  {| db := db w; objects := f (objects w); replies := replies w;
     calls := calls w; supabaseUrl := supabaseUrl w |}.

Definition record_call (c : Call) (w : World) : World :=
  {| db := db w; objects := objects w; replies := replies w;
     calls := calls w ++ [c]; supabaseUrl := supabaseUrl w |}.

(** *** Asynchronous code: state and exceptions *)

Inductive Outcome (A : Type) : Type :=
| Returned (a : A)
| Threw (t : Thrown).
Arguments Returned {A} _.
Arguments Threw {A} _.

Definition Async (A : Type) : Type := World → Outcome A * World.

Definition ret {A} (a : A) : Async A := fun w => (Returned a, w).

Definition throw {A} (t : Thrown) : Async A := fun w => (Threw t, w).

Definition bind {A B} (m : Async A) (k : A → Async B) : Async B :=
  fun w =>
    match m w with
    | (Returned a, w') => k a w'
    | (Threw t, w') => (Threw t, w')
    end.

(** [try { m } catch (error) { h error }]. *)
Definition try_catch {A} (m : Async A) (h : Thrown → Async A) : Async A :=
  fun w =>
    match m w with
    | (Returned a, w') => (Returned a, w')
    | (Threw t, w') => h t w'
    end.

(** Sends a request: logs it and reads the service's answer. *)
Definition request (c : Call) : Async Reply :=
  fun w => (Returned (replies w (length (calls w))), record_call c w).

Definition ok {A} (a : option A) : Response A := {| data := a; error := None |}.
Definition failed {A} (e : ServiceError) : Response A :=
  {| data := None; error := Some e |}.

(** *** Database requests *)

(** [from('cmr_signatures').select('id').eq('cmr_id', c)
      .eq('party_type', p).limit(n)] *)
Definition select_signature_ids (cmrId partyType : string) (limit : nat)
  : Async (Response (list string)) :=
  bind (request (Select "cmr_signatures"
                   [("cmr_id", cmrId); ("party_type", partyType)]))
    (fun r w =>
       match r with
       | Refused e => (Returned (failed e), w)
       | Performed _ _ =>
           let rows :=
             filter (fun s => CmrSignature.cmr_id s = cmrId
                              ∧ CmrSignature.party_type s = partyType)
                    (cmr_signatures (db w)) in
           (Returned (ok (Some (take limit (CmrSignature.id <$> rows)))), w)
       end).

(** [from('cmr_reserves').select('id').eq('cmr_id', c).limit(n)] *)
Definition select_reserve_ids (cmrId : string) (limit : nat)
  : Async (Response (list string)) :=
  bind (request (Select "cmr_reserves" [("cmr_id", cmrId)]))
    (fun r w =>
       match r with
       | Refused e => (Returned (failed e), w)
       | Performed _ _ =>
           let rows :=
             filter (fun s => CmrReserve.cmr_id s = cmrId)
                    (cmr_reserves (db w)) in
           (Returned (ok (Some (take limit (CmrReserve.id <$> rows)))), w)
       end).

(** [from('cmr_events').insert({ cmr_id, user_id, type, metadata })] *)
Definition insert_event (cmrId userId type : string)
    (metadata : list (string * Json)) : Async (Response unit) :=
  bind (request (Insert "cmr_events"))
    (fun r w =>
       match r with
       | Refused e => (Returned (failed e), w)
       | Performed gid gat =>
           let row := CmrEvent.mk gid cmrId userId type metadata gat in
           (Returned (ok None),
            set_db (fun d =>
              {| cmr_documents := cmr_documents d;
                 cmr_events := cmr_events d ++ [row];
                 cmr_signatures := cmr_signatures d;
                 cmr_reserves := cmr_reserves d;
                 cmr_photos := cmr_photos d |}) w)
       end).

(** [from('cmr_documents').update({ status }).eq('id', c)]: the row whose
    primary key is [c], when there is one. *)
Definition update_document_status (cmrId status : string)
  : Async (Response unit) :=
  bind (request (Update "cmr_documents" [("id", cmrId)]))
    (fun r w =>
       match r with
       | Refused e => (Returned (failed e), w)
       | Performed _ _ =>
           (Returned (ok None),
            set_db (fun d =>
              {| cmr_documents :=
                   alter (CmrDocument.with_status status) cmrId (cmr_documents d);
                 cmr_events := cmr_events d;
                 cmr_signatures := cmr_signatures d;
                 cmr_reserves := cmr_reserves d;
                 cmr_photos := cmr_photos d |}) w)
       end).

(** [from('cmr_photos').insert({ cmr_id, user_id, storage_path })
      .select().single()] *)
Definition insert_photo (cmrId userId storagePath : string)
  : Async (Response CmrPhoto.t) :=
  bind (request (Insert "cmr_photos"))
    (fun r w =>
       match r with
       | Refused e => (Returned (failed e), w)
       | Performed gid gat =>
           let row := CmrPhoto.mk gid cmrId userId storagePath gat in
           (Returned (ok (Some row)),
            set_db (fun d =>
              {| cmr_documents := cmr_documents d;
                 cmr_events := cmr_events d;
                 cmr_signatures := cmr_signatures d;
                 cmr_reserves := cmr_reserves d;
                 cmr_photos := cmr_photos d ++ [row] |}) w)
       end).

(** *** Object storage requests *)

(** [storage.from(bucket).upload(path, file, { upsert: false })]: the
    service refuses a path that is already taken. *)
Definition storage_upload (bucket path : string) (file : File)
  : Async (Response string) :=
  bind (request (Upload bucket path))
    (fun r w =>
       match r with
       | Refused e => (Returned (failed e), w)
       | Performed _ _ =>
           match objects w !! (bucket, path) with
           | Some _ =>
               (Returned (failed {| message := "The resource already exists" |}), w)
           | None =>
               (Returned (ok (Some path)),
                set_objects (insert (bucket, path) file) w)
           end
       end).

(** [storage.from(bucket).remove(paths)] *)
Definition storage_remove (bucket : string) (paths : list string)
  : Async (Response unit) :=
  bind (request (Remove bucket paths))
    (fun r w =>
       match r with
       | Refused e => (Returned (failed e), w)
       | Performed _ _ =>
           (Returned (ok None),
            set_objects
              (fun o => foldr (fun p acc => delete (bucket, p) acc) o paths) w)
       end).

(** [storage.from(bucket).getPublicUrl(path)]: computed by the client,
    no request is sent. *)
Definition getPublicUrl (bucket path : string) : Async string :=
  fun w =>
    (Returned (supabaseUrl w +:+ "/storage/v1/object/public/"
               +:+ bucket +:+ "/" +:+ path), w).

End Supabase.

#[export] Instance async_ret : MRet Supabase.Async := @Supabase.ret.
#[export] Instance async_bind : MBind Supabase.Async :=
  fun A B k m => Supabase.bind m k.

(* ===================================================================== *)
(** ** cmr-actions.ts: the lifecycle engine *)
(* ===================================================================== *)

Module CmrActions.
Import Supabase.

(** [if (error) throw error], the check after each request. *)
Definition throw_if_error {A} (r : Response A) : Async unit :=
  match error r with
  | Some e => throw (ThrowService e)
  | None => ret tt
  end.

Definition startLoading (cmrId userId : string) : Async unit :=
  (* event *)
  r ← insert_event cmrId userId "loading_start" [];
  throw_if_error r;;
  (* statut *)
  r ← update_document_status cmrId "loading";
  throw_if_error r.

Definition endLoading (cmrId userId : string) : Async unit :=
  sigs ← select_signature_ids cmrId "shipper" 1;
  throw_if_error sigs;;
  match data sigs with
  | None | Some [] =>
      throw (ThrowError "Cannot end loading without shipper signature")
  | Some (_ :: _) => ret tt
  end;;
  r ← insert_event cmrId userId "loading_end" [];
  throw_if_error r;;
  r ← update_document_status cmrId "in_transit";
  throw_if_error r.

Definition startDelivery (cmrId userId : string) : Async unit :=
  r ← insert_event cmrId userId "delivery_start" [];
  throw_if_error r;;
  r ← update_document_status cmrId "ready_to_deliver";
  throw_if_error r.

Definition completeDelivery (cmrId userId : string) : Async unit :=
  (* 1) reserves ? *)
  reserves ← select_reserve_ids cmrId 1;
  throw_if_error reserves;;
  let hasReserves :=
    match data reserves with
    | Some (_ :: _) => true
    | _ => false
    end in
  let finalStatus :=
    if hasReserves then "completed_with_reserves" else "completed" in
  (* 2) statut cmr_documents *)
  r ← update_document_status cmrId finalStatus;
  throw_if_error r;;
  (* 3) event delivery_end *)
  r ← insert_event cmrId userId "delivery_end"
        [("status", JString finalStatus); ("has_reserves", JBool hasReserves)];
  throw_if_error r.

(** The dispatch on the action tag, a string at run time. *)
Definition performCmrAction (cmrId userId type : string) : Async unit :=
  if String.eqb type "loading_start" then startLoading cmrId userId
  else if String.eqb type "loading_end" then endLoading cmrId userId
  else if String.eqb type "delivery_start" then startDelivery cmrId userId
  else if String.eqb type "delivery_end" then completeDelivery cmrId userId
  else throw (ThrowError ("Unknown CMR action type: " +:+ type)).

End CmrActions.

(* ===================================================================== *)
(** ** JavaScript strings *)
(* ===================================================================== *)

Module Js.

(** [s.split('.').pop()]: the text after the last dot, the whole string
    when it has none.  [cur] is the segment being read. *)
Fixpoint split_dot_pop (cur s : string) : string :=
  match s with
  | EmptyString => cur
  | String c rest =>
      if Ascii.eqb c "."%char then split_dot_pop "" rest
      else split_dot_pop (cur +:+ String c "") rest
  end.

Fixpoint map_chars (f : ascii → ascii) (s : string) : string :=
  match s with
  | EmptyString => EmptyString
  | String c rest => String (f c) (map_chars f rest)
  end.

Definition upper_char (c : ascii) : ascii :=
  let n := nat_of_ascii c in
  if ((97 <=? n) && (n <=? 122))%nat then ascii_of_nat (n - 32) else c.

(** [s.toUpperCase()], on the ASCII letters the status values are made of
    (the column is constrained to the seven status literals). *)
Definition toUpperCase (s : string) : string := map_chars upper_char s.

(** [s.replace(/_/g, ' ')]. *)
Definition underscores_to_spaces (s : string) : string :=
  map_chars (fun c => if Ascii.eqb c "_"%char then " "%char else c) s.

(** Truthiness of nullable columns. *)
Definition truthy_str (o : option string) : bool :=
  match o with
  | Some s => negb (String.eqb s "")
  | None => false
  end.

Definition truthy_num (o : option Q) : bool :=
  match o with
  | Some q => negb (Qeq_bool q 0)
  | None => false
  end.

Definition truthy_bool (o : option bool) : bool :=
  match o with
  | Some b => b
  | None => false
  end.

(** A nullable string inside a template literal. *)
Definition show (o : option string) : string :=
  match o with
  | Some s => s
  | None => "null"
  end.

(** [a > b] on numbers. *)
Definition gt (a b : Q) : bool := negb (Qle_bool a b).

End Js.

(* ===================================================================== *)
(** ** photo-upload.ts *)
(* ===================================================================== *)

Module PhotoUpload.
Import Supabase.

(** What [uploadCmrPhoto] returns: [{ ...photoRecord, url }]. *)
Record PhotoWithUrl : Type := {
  photoRecord : option CmrPhoto.t;
  url : string;
}.

(** The unique filename, [`${userId}/${cmrId}/${timestamp}_${randomString}.${fileExt}`]. *)
Definition storagePath (timestamp : N) (randomString : string)
    (file : File) (cmrId userId : string) : string :=
  let fileExt := Js.split_dot_pop "" (name file) in
  userId +:+ "/" +:+ cmrId +:+ "/" +:+ pretty timestamp +:+ "_"
  +:+ randomString +:+ "." +:+ fileExt.

(** [timestamp] is the reading of [Date.now()] and [randomString] the
    value of [Math.random().toString(36).substring(7)].  The
    [console.error] calls have no effect on the stores and are left out. *)
Definition uploadCmrPhoto (timestamp : N) (randomString : string)
    (file : File) (cmrId userId : string) : Async PhotoWithUrl :=
  try_catch
    ((* Generate unique filename *)
     let fileName := storagePath timestamp randomString file cmrId userId in
     (* Upload to Supabase Storage *)
     up ← storage_upload "cmr-photos" fileName file;
     match error up with
     | Some uploadError =>
         throw (ThrowError ("Failed to upload photo: " +:+ message uploadError))
     | None => ret tt
     end;;
     (* Get public URL *)
     publicUrl ← getPublicUrl "cmr-photos" fileName;
     (* Insert record in cmr_photos table *)
     ins ← insert_photo cmrId userId fileName;
     match error ins with
     | Some insertError =>
         (* Try to clean up uploaded file *)
         storage_remove "cmr-photos" [fileName];;
         throw (ThrowError ("Failed to save photo record: " +:+ message insertError))
     | None => ret tt
     end;;
     ret {| photoRecord := data ins; url := publicUrl |})
    (fun error => throw error).

End PhotoUpload.

(* ===================================================================== *)
(** ** The jsPDF document object *)
(* ===================================================================== *)

Module JsPdf.

Definition Color : Type := Z * Z * Z.

Record Font : Type := { family : string; style : string; size : Q }.

(** What a page holds: each drawing call with the graphic state it was
    issued in. *)
Inductive Op : Type :=
| Rect (x y w h : Q) (mode : string) (fill draw : Color)
| Text (text : string) (x y : Q) (align : option string) (font : Font)
       (color : Color)
| Line (x1 y1 x2 y2 : Q) (draw : Color)
| Image (imageData format : string) (x y w h : Q).

Record t : Type := mk {
  pages : list (list Op);
  currentPage : nat;           (* 1-based, as [setPage] counts *)
  font : Font;
  textColor : Color;
  fillColor : Color;
  drawColor : Color;
}.

(** [new jsPDF({ orientation: 'portrait', unit: 'mm', format: 'a4' })] *)
Definition create : t :=
  mk [[]] 1 {| family := "helvetica"; style := "normal"; size := 16 |}
     (0, 0, 0) (0, 0, 0) (0, 0, 0).

Definition put (op : Op) (d : t) : t :=
  mk (alter (fun p => p ++ [op]) (pred (currentPage d)) (pages d))
     (currentPage d) (font d) (textColor d) (fillColor d) (drawColor d).

Definition setFontSize (s : Q) (d : t) : t :=
  mk (pages d) (currentPage d)
     {| family := family (font d); style := style (font d); size := s |}
     (textColor d) (fillColor d) (drawColor d).

Definition setFont (fam sty : string) (d : t) : t :=
  mk (pages d) (currentPage d)
     {| family := fam; style := sty; size := size (font d) |}
     (textColor d) (fillColor d) (drawColor d).

Definition setTextColor (r g b : Z) (d : t) : t :=
  mk (pages d) (currentPage d) (font d) (r, g, b) (fillColor d) (drawColor d).

Definition setFillColor (r g b : Z) (d : t) : t :=
  mk (pages d) (currentPage d) (font d) (textColor d) (r, g, b) (drawColor d).

Definition setDrawColor (r g b : Z) (d : t) : t :=
  mk (pages d) (currentPage d) (font d) (textColor d) (fillColor d) (r, g, b).

Definition text (s : string) (x y : Q) (align : option string) (d : t) : t :=
  put (Text s x y align (font d) (textColor d)) d.

Definition rect (x y w h : Q) (mode : string) (d : t) : t :=
  put (Rect x y w h mode (fillColor d) (drawColor d)) d.

Definition line (x1 y1 x2 y2 : Q) (d : t) : t :=
  put (Line x1 y1 x2 y2 (drawColor d)) d.

Definition addImage (imageData format : string) (x y w h : Q) (d : t) : t :=
  put (Image imageData format x y w h) d.

(** [addPage()] appends a page and makes it the current one. *)
Definition addPage (d : t) : t :=
  mk (pages d ++ [[]]) (S (length (pages d))) (font d) (textColor d)
     (fillColor d) (drawColor d).

Definition setPage (i : nat) (d : t) : t :=
  mk (pages d) i (font d) (textColor d) (fillColor d) (drawColor d).

(** [pdf.internal.pages.length - 1] *)
Definition numberOfPages (d : t) : nat := length (pages d).

End JsPdf.

(* ===================================================================== *)
(** ** pdf-generator.ts *)
(* ===================================================================== *)

Module PdfGenerator.
Import Js.
Local Open Scope Q_scope.

Record SignatureWithUrl : Type := {
  signature : CmrSignature.t;
  signatureUrl : option string;
}.

Record ReserveWithUrl : Type := {
  reserve : CmrReserve.t;
  reservePhotoUrl : option string;     (* [photoUrl] of a reserve *)
}.

Record PhotoWithUrl : Type := {
  photo : CmrPhoto.t;
  photoUrl : option string;
}.

Record GeneratePdfOptions : Type := {
  cmr : CmrDocument.t;
  profile : option Profile.t;
  shipperSignature : option SignatureWithUrl;
  consigneeSignature : option SignatureWithUrl;
  reserves : list ReserveWithUrl;
  photos : list PhotoWithUrl;
}.

(** The three ways a date is printed. *)
Inductive DateFormat : Type :=
| LongDate          (* toLocaleDateString('fr-FR', { year, month: 'long', day }) *)
| LongDateTime      (* the same with hour and minute, '2-digit' *)
| DefaultDateTime.  (* toLocaleString('fr-FR') *)

(** What the generator takes from jsPDF and from the browser. *)
Record Runtime : Type := {
  pageWidth : Q;                      (* pdf.internal.pageSize.getWidth() *)
  pageHeight : Q;                     (* pdf.internal.pageSize.getHeight() *)
  splitTextToSize : JsPdf.Font → string → Q → list string;
  fetchDataUrl : string → option string;   (* fetch, blob, readAsDataURL;
                                              None when one of them throws *)
  addImageAccepts : string → string → bool; (* false when addImage throws *)
  formatDate : DateFormat → string → string;
  numberToString : Q → string;        (* a number inside a template literal *)
}.

(** The mutable state of [generateCmrPdf]: the document and the cursor. *)
Record Layout : Type := { pdf : JsPdf.t; yPos : Q }.

Definition Gen (A : Type) : Type := Layout → A * Layout.

#[export] Instance gen_ret : MRet Gen := fun A a st => (a, st).
#[export] Instance gen_bind : MBind Gen :=
  fun A B k m st => let '(a, st') := m st in k a st'.

Definition withY (f : Q → JsPdf.t → JsPdf.t) : Gen unit :=
  fun st => (tt, {| pdf := f (yPos st) (pdf st); yPos := yPos st |}).

Definition doc (f : JsPdf.t → JsPdf.t) : Gen unit := withY (fun _ => f).

(** [yPos += d] *)
Definition advance (d : Q) : Gen unit :=
  fun st => (tt, {| pdf := pdf st; yPos := yPos st + d |}).

(** [yPos -= d] *)
Definition retreat (d : Q) : Gen unit :=
  fun st => (tt, {| pdf := pdf st; yPos := yPos st - d |}).

Definition when (b : bool) (m : Gen unit) : Gen unit :=
  if b then m else mret tt.

Fixpoint for_each {A} (l : list A) (body : A → Gen unit) : Gen unit :=
  match l with
  | [] => mret tt
  | x :: rest => body x;; for_each rest body
  end.

Definition join (sep : string) (l : list string) : string :=
  String.concat sep l.

Definition leftMargin : Q := 15.
Definition rightMargin : Q := 15.
Definition lineHeight : Q := 6.

Section Generator.
Context (rt : Runtime).

Definition contentWidth : Q := pageWidth rt - leftMargin - rightMargin.

Definition num (o : option Q) : string :=
  match o with
  | Some q => numberToString rt q
  | None => "null"
  end.

(** [x && x > 0] on a nullable number. *)
Definition positive (o : option Q) : bool :=
  truthy_num o && match o with Some q => gt q 0 | None => false end.

(** [pdf.splitTextToSize(text, width)], which measures with the
    current font. *)
Definition splitText (text : string) (width : Q) : Gen (list string) :=
  fun st => (splitTextToSize rt (JsPdf.font (pdf st)) text width, st).

(** Helper to check if we need a new page. *)
Definition checkPageBreak (requiredSpace : Q) : Gen bool :=
  fun st =>
    if gt (yPos st + requiredSpace) (pageHeight rt - 20) then
      (true, {| pdf := JsPdf.addPage (pdf st); yPos := 20 |})
    else (false, st).

(** Helper to add text. *)
Definition addText (text : string) (fontSize : Q) (isBold : bool)
    (xOffset : Q) : Gen unit :=
  checkPageBreak lineHeight;;
  doc (JsPdf.setFontSize fontSize);;
  doc (JsPdf.setFont "helvetica" (if isBold then "bold" else "normal"));;
  withY (fun yPos => JsPdf.text text (leftMargin + xOffset) yPos None);;
  advance lineHeight.

(** Helper to add section title. *)
Definition addSection (title boxNumber : string) : Gen unit :=
  checkPageBreak (lineHeight + 4);;
  advance 2;;
  doc (JsPdf.setFontSize 11);;
  doc (JsPdf.setFont "helvetica" "bold");;
  let displayTitle :=
    if negb (String.eqb boxNumber "") then boxNumber +:+ ". " +:+ title
    else title in
  withY (fun yPos => JsPdf.text displayTitle leftMargin yPos None);;
  advance lineHeight;;
  (* Add underline *)
  withY (fun yPos =>
           JsPdf.line leftMargin (yPos - 1) (pageWidth rt - rightMargin) (yPos - 1));;
  advance 2.

(** Helper to add subsection. *)
Definition addSubSection (title : string) (fontSize : Q) : Gen unit :=
  checkPageBreak lineHeight;;
  doc (JsPdf.setFontSize fontSize);;
  doc (JsPdf.setFont "helvetica" "bold");;
  withY (fun yPos => JsPdf.text title leftMargin yPos None);;
  advance lineHeight.

(** Helper for two-column layout. *)
Definition addTwoColumns (left right : string) (fontSize : Q) : Gen unit :=
  checkPageBreak lineHeight;;
  doc (JsPdf.setFontSize fontSize);;
  doc (JsPdf.setFont "helvetica" "normal");;
  withY (fun yPos => JsPdf.text left leftMargin yPos None);;
  withY (fun yPos => JsPdf.text right (pageWidth rt / 2) yPos None);;
  advance lineHeight.

(** [const lines = pdf.splitTextToSize(text, width);
     for (const line of lines) addText(line, 9);] *)
Definition addWrapped (text : string) (width : Q) : Gen unit :=
  lines ← splitText text width;
  for_each lines (fun line => addText line 9 false 0).

(** The [try { checkPageBreak; fetch; addImage; yPos += h + 5 }
    catch { onError }] block written out at each image. *)
Definition embedImage (url : option string) (requiredSpace : Q)
    (format : string) (x imgWidth imgHeight : Q) (onError : Gen unit)
  : Gen unit :=
  checkPageBreak requiredSpace;;
  match fetchDataUrl rt (show url) with
  | Some base64 =>
      if addImageAccepts rt base64 format then
        withY (fun yPos =>
                 JsPdf.addImage base64 format x yPos imgWidth imgHeight);;
        advance (imgHeight + 5)
      else onError
  | None => onError
  end.

(** HEADER - CMR TITLE AND NUMBER *)
Definition header (c : CmrDocument.t) : Gen unit :=
  doc (JsPdf.setFillColor 230 230 250);;
  withY (fun yPos => JsPdf.rect leftMargin yPos contentWidth 15 "F");;
  doc (JsPdf.setFontSize 20);;
  doc (JsPdf.setFont "helvetica" "bold");;
  withY (fun yPos =>
           JsPdf.text "CMR" (pageWidth rt / 2) (yPos + 6) (Some "center"));;
  doc (JsPdf.setFontSize 9);;
  doc (JsPdf.setFont "helvetica" "normal");;
  withY (fun yPos =>
           JsPdf.text "Convention relative au contrat de transport"
             (pageWidth rt / 2) (yPos + 11) (Some "center"));;
  withY (fun yPos =>
           JsPdf.text "international de marchandises par route"
             (pageWidth rt / 2) (yPos + 14) (Some "center"));;
  advance 17;;
  (* CMR Number and Type *)
  doc (JsPdf.setFontSize 10);;
  doc (JsPdf.setFont "helvetica" "bold");;
  let cmrNumberText :=
    if truthy_str (CmrDocument.cmr_number c)
    then "CMR N°: " +:+ show (CmrDocument.cmr_number c)
    else "CMR ID: " +:+ String.substring 0 8 (CmrDocument.id c) in
  withY (fun yPos => JsPdf.text cmrNumberText leftMargin yPos None);;
  let international := truthy_bool (CmrDocument.is_international c) in
  let transportType := if international then "INTERNATIONAL" else "NATIONAL" in
  (if international then doc (JsPdf.setTextColor 200 0 0)
   else doc (JsPdf.setTextColor 0 100 0));;
  withY (fun yPos =>
           JsPdf.text transportType (pageWidth rt - rightMargin) yPos
             (Some "right"));;
  doc (JsPdf.setTextColor 0 0 0);;
  advance (lineHeight + 3);;
  (* Status badge *)
  let statusText :=
    underscores_to_spaces (toUpperCase (CmrDocument.status c)) in
  let statusColor :=
    if String.eqb (CmrDocument.status c) "completed"
       || String.eqb (CmrDocument.status c) "completed_with_reserves"
    then (34, 197, 94)%Z else (156, 163, 175)%Z in
  doc (JsPdf.setFontSize 9);;
  doc (JsPdf.setTextColor statusColor.1.1 statusColor.1.2 statusColor.2);;
  withY (fun yPos =>
           JsPdf.text ("Status: " +:+ statusText)
             (pageWidth rt - rightMargin) yPos (Some "right"));;
  doc (JsPdf.setTextColor 0 0 0);;
  advance (lineHeight + 5).

(** SECTION: PARTIES (Boxes 1-3) *)
Definition parties (c : CmrDocument.t) (p : option Profile.t) : Gen unit :=
  addSection "PARTIES" "1-3";;
  (* Box 1: SHIPPER *)
  addSubSection "1. Sender / Shipper (Expéditeur)" 10;;
  addText ("Name: " +:+ CmrDocument.shipper_name c) 9 true 0;;
  when (truthy_str (CmrDocument.shipper_address c))
    (addWrapped ("Address: " +:+ show (CmrDocument.shipper_address c))
       contentWidth);;
  advance 2;;
  (* Box 2: TRANSPORTER, from the profiles table *)
  addSubSection "2. Carrier / Transporter (Transporteur)" 10;;
  match p with
  | Some profile =>
      when (truthy_str (Profile.company_name profile))
        (addText ("Company: " +:+ show (Profile.company_name profile)) 9 true 0);;
      when (truthy_str (Profile.company_address profile))
        (addWrapped ("Address: " +:+ show (Profile.company_address profile))
           contentWidth);;
      (* Company registration numbers on same line *)
      let regNumbers :=
        (if truthy_str (Profile.company_siren profile)
         then ["SIREN: " +:+ show (Profile.company_siren profile)] else [])
        ++ (if truthy_str (Profile.company_siret profile)
            then ["SIRET: " +:+ show (Profile.company_siret profile)] else [])
        ++ (if truthy_str (Profile.company_naf profile)
            then ["NAF: " +:+ show (Profile.company_naf profile)] else []) in
      when (0 <? length regNumbers)%nat
        (addText (join " | " regNumbers) 8 false 0);;
      when (truthy_str (Profile.phone profile))
        (addText ("Phone: " +:+ show (Profile.phone profile)) 9 false 0);;
      when (truthy_str (Profile.billing_email profile))
        (addText ("Email: " +:+ show (Profile.billing_email profile)) 9 false 0)
  | None =>
      doc (JsPdf.setFont "helvetica" "italic");;
      addText "Transporter information not available" 9 false 0
  end;;
  advance 2;;
  (* Box 3: CONSIGNEE *)
  addSubSection "3. Consignee (Destinataire)" 10;;
  addText ("Name: " +:+ CmrDocument.consignee_name c) 9 true 0;;
  when (truthy_str (CmrDocument.consignee_address c))
    (addWrapped ("Address: " +:+ show (CmrDocument.consignee_address c))
       contentWidth);;
  advance 2;;
  (* ADDITIONAL PARTIES *)
  when (truthy_str (CmrDocument.principal_name c)
        || truthy_str (CmrDocument.delivery_carrier_name c))
    (addSubSection "Additional Parties" 10;;
     when (truthy_str (CmrDocument.principal_name c))
       (addText "Principal / Ordering Party (Donneur d'ordres):" 9 true 0;;
        addText ("  " +:+ show (CmrDocument.principal_name c)) 9 false 0;;
        when (truthy_str (CmrDocument.principal_address c))
          (addWrapped ("  " +:+ show (CmrDocument.principal_address c))
             (contentWidth - 5));;
        advance 1);;
     when (truthy_str (CmrDocument.delivery_carrier_name c))
       (addText "Successive Carrier (Transporteur successif):" 9 true 0;;
        addText ("  " +:+ show (CmrDocument.delivery_carrier_name c)) 9 false 0;;
        when (truthy_str (CmrDocument.delivery_carrier_address c))
          (addWrapped ("  " +:+ show (CmrDocument.delivery_carrier_address c))
             (contentWidth - 5)));;
     advance 2);;
  advance 3.

(** SECTION: LOADING & DELIVERY LOCATIONS (Boxes 4, 6, 7) *)
Definition loadingAndDelivery (c : CmrDocument.t) : Gen unit :=
  addSection "LOADING & DELIVERY" "4, 6-7";;
  (* Box 4: Loading place and date *)
  addSubSection
    "4. Loading Place and Date (Lieu et date de la prise en charge)" 10;;
  addText ("Place: " +:+ CmrDocument.loading_place c) 9 true 0;;
  addText ("Planned Date: "
           +:+ formatDate rt LongDate (CmrDocument.loading_date c)) 9 false 0;;
  (* Extended timestamps (digital tracking) *)
  when (truthy_str (CmrDocument.loading_arrival_at c)
        || truthy_str (CmrDocument.loading_departure_at c))
    (addText "Actual Timestamps:" 9 true 0;;
     when (truthy_str (CmrDocument.loading_arrival_at c))
       (addText ("  Arrived: "
                 +:+ formatDate rt DefaultDateTime
                       (show (CmrDocument.loading_arrival_at c))) 8 false 0);;
     when (truthy_str (CmrDocument.loading_departure_at c))
       (addText ("  Departed: "
                 +:+ formatDate rt DefaultDateTime
                       (show (CmrDocument.loading_departure_at c))) 8 false 0));;
  when (truthy_str (CmrDocument.loading_extra_services c))
    (addText ("Extra Services: "
              +:+ show (CmrDocument.loading_extra_services c)) 9 false 0);;
  advance 2;;
  (* Box 6: Delivery place *)
  addSubSection "6. Delivery Place (Lieu de livraison)" 10;;
  addText ("Place: " +:+ CmrDocument.delivery_place c) 9 true 0;;
  (* Box 7: Delivery date *)
  when (truthy_str (CmrDocument.requested_delivery_at c))
    (addText ("Requested Delivery: "
              +:+ formatDate rt DefaultDateTime
                    (show (CmrDocument.requested_delivery_at c))) 9 false 0);;
  (* Extended timestamps (digital tracking) *)
  when (truthy_str (CmrDocument.delivery_arrival_at c)
        || truthy_str (CmrDocument.delivery_departure_at c))
    (addText "Actual Timestamps:" 9 true 0;;
     when (truthy_str (CmrDocument.delivery_arrival_at c))
       (addText ("  Arrived: "
                 +:+ formatDate rt DefaultDateTime
                       (show (CmrDocument.delivery_arrival_at c))) 8 false 0);;
     when (truthy_str (CmrDocument.delivery_departure_at c))
       (addText ("  Departed: "
                 +:+ formatDate rt DefaultDateTime
                       (show (CmrDocument.delivery_departure_at c))) 8 false 0));;
  when (truthy_str (CmrDocument.delivery_extra_services c))
    (addText ("Extra Services: "
              +:+ show (CmrDocument.delivery_extra_services c)) 9 false 0);;
  advance 3.

(** SECTION: GOODS INFORMATION (Boxes 8-14) *)
Definition goods (c : CmrDocument.t) : Gen unit :=
  addSection "GOODS INFORMATION" "8-14";;
  (* Box 11: Nature of goods (most important, shown first) *)
  addSubSection
    "11. Description / Nature of Goods (Nature de la marchandise)" 10;;
  (if truthy_str (CmrDocument.goods_description c)
   then addWrapped (show (CmrDocument.goods_description c)) contentWidth
   else addText "N/A" 9 false 0);;
  advance 2;;
  (* Boxes 9, 10, 13: Packages, Packaging, Weight *)
  addSubSection "Package Details" 10;;
  addTwoColumns
    ("9. Packages: "
     +:+ (if truthy_num (CmrDocument.packages_count c)
          then num (CmrDocument.packages_count c) else "N/A"))
    ("10. Packaging: "
     +:+ (if truthy_str (CmrDocument.packaging_type c)
          then show (CmrDocument.packaging_type c) else "N/A"))
    9;;
  addTwoColumns
    ("13. Gross Weight: "
     +:+ (if truthy_num (CmrDocument.weight_kg c)
          then num (CmrDocument.weight_kg c) +:+ " kg" else "N/A"))
    ("14. Volume: "
     +:+ (if truthy_num (CmrDocument.declared_value c)
          then num (CmrDocument.declared_value c) +:+ " "
               +:+ (if truthy_str (CmrDocument.declared_value_currency c)
                    then show (CmrDocument.declared_value_currency c)
                    else "EUR")
          else "N/A"))
    9;;
  advance 1;;
  (* Box 8: Marks and numbers *)
  when (truthy_str (CmrDocument.goods_marks_numbers c))
    (addText ("8. Marks & Numbers: "
              +:+ show (CmrDocument.goods_marks_numbers c)) 9 false 0;;
     advance 1);;
  advance 2.

(** SPECIAL CONDITIONS: DANGEROUS GOODS (ADR) *)
Definition dangerousGoods (c : CmrDocument.t) : Gen unit :=
  when (truthy_bool (CmrDocument.is_dangerous_goods c))
    (checkPageBreak 25;;
     (* Draw warning box *)
     doc (JsPdf.setFillColor 255 237 213);;
     doc (JsPdf.setDrawColor 255 140 0);;
     let boxHeight := 20 in
     withY (fun yPos => JsPdf.rect leftMargin yPos contentWidth boxHeight "FD");;
     advance 4;;
     addSubSection "⚠ DANGEROUS GOODS (ADR) - Matières Dangereuses" 10;;
     retreat 1;;
     when (truthy_str (CmrDocument.dangerous_goods_class c))
       (addText ("  Class: "
                 +:+ show (CmrDocument.dangerous_goods_class c)) 9 false 0);;
     when (truthy_str (CmrDocument.dangerous_goods_un_number c))
       (addText ("  UN Number: "
                 +:+ show (CmrDocument.dangerous_goods_un_number c)) 9 false 0);;
     when (truthy_str (CmrDocument.dangerous_goods_adr_letter c))
       (addText ("  ADR Letter: "
                 +:+ show (CmrDocument.dangerous_goods_adr_letter c)) 9 false 0);;
     advance 3).

(** SPECIAL CONDITIONS: TEMPERATURE CONTROL *)
Definition temperatureControl (c : CmrDocument.t) : Gen unit :=
  when (truthy_bool (CmrDocument.is_controlled_temperature c))
    (checkPageBreak 15;;
     (* Draw info box *)
     doc (JsPdf.setFillColor 219 234 254);;
     doc (JsPdf.setDrawColor 59 130 246);;
     let boxHeight := 12 in
     withY (fun yPos => JsPdf.rect leftMargin yPos contentWidth boxHeight "FD");;
     advance 4;;
     addSubSection "❄ TEMPERATURE CONTROLLED - Transport Frigorifique" 10;;
     retreat 1;;
     let tempInfo :=
       (match CmrDocument.temperature_min c with
        | Some q => ["Min: " +:+ numberToString rt q +:+ "°C"]
        | None => []
        end)
       ++ (match CmrDocument.temperature_max c with
           | Some q => ["Max: " +:+ numberToString rt q +:+ "°C"]
           | None => []
           end) in
     when (0 <? length tempInfo)%nat
       (addText ("  " +:+ join " | " tempInfo) 9 false 0);;
     advance 3).

(** SECTION: PALLETS (Box 15) *)
Definition pallets (c : CmrDocument.t) : Gen unit :=
  let hasPallets :=
    truthy_num (CmrDocument.pallets_80_120 c)
    || truthy_num (CmrDocument.pallets_100_120 c)
    || truthy_num (CmrDocument.pallets_europe c)
    || truthy_num (CmrDocument.pallets_others c)
    || truthy_num (CmrDocument.pallets_bacs c)
    || truthy_num (CmrDocument.pallets_rolls c) in
  when hasPallets
    (addSection "PALLETS & SUPPORTS" "15";;
     let palletLines :=
       (if positive (CmrDocument.pallets_80_120 c)
        then ["80x120: " +:+ num (CmrDocument.pallets_80_120 c)] else [])
       ++ (if positive (CmrDocument.pallets_100_120 c)
           then ["100x120: " +:+ num (CmrDocument.pallets_100_120 c)] else [])
       ++ (if positive (CmrDocument.pallets_europe c)
           then ["Euro: " +:+ num (CmrDocument.pallets_europe c)] else [])
       ++ (if positive (CmrDocument.pallets_others c)
           then ["Others: " +:+ num (CmrDocument.pallets_others c)] else [])
       ++ (if positive (CmrDocument.pallets_bacs c)
           then ["Bacs: " +:+ num (CmrDocument.pallets_bacs c)] else [])
       ++ (if positive (CmrDocument.pallets_rolls c)
           then ["Rolls: " +:+ num (CmrDocument.pallets_rolls c)] else []) in
     when (0 <? length palletLines)%nat
       (addText (join " | " palletLines) 9 false 0);;
     when (truthy_str (CmrDocument.pallets_origin c))
       (addText ("Origin: " +:+ show (CmrDocument.pallets_origin c)) 9 false 0);;
     (* Pallet exchange details *)
     when (truthy_num (CmrDocument.pallets_loaded_at_shipper c)
           || truthy_num (CmrDocument.pallets_returned_to_shipper c)
           || truthy_num (CmrDocument.pallets_delivered_to_consignee c)
           || truthy_num (CmrDocument.pallets_returned_by_consignee c))
       (advance 1;;
        addText "Pallet Exchange:" 9 true 0;;
        when (truthy_num (CmrDocument.pallets_loaded_at_shipper c))
          (addText ("  Loaded at shipper: "
                    +:+ num (CmrDocument.pallets_loaded_at_shipper c)) 8 false 0);;
        when (truthy_num (CmrDocument.pallets_returned_to_shipper c))
          (addText ("  Returned to shipper: "
                    +:+ num (CmrDocument.pallets_returned_to_shipper c)) 8 false 0);;
        when (truthy_num (CmrDocument.pallets_delivered_to_consignee c))
          (addText ("  Delivered to consignee: "
                    +:+ num (CmrDocument.pallets_delivered_to_consignee c))
             8 false 0);;
        when (truthy_num (CmrDocument.pallets_returned_by_consignee c))
          (addText ("  Returned by consignee: "
                    +:+ num (CmrDocument.pallets_returned_by_consignee c))
             8 false 0));;
     when (truthy_str (CmrDocument.pallets_deposited_at c))
       (addText ("Deposited at: "
                 +:+ show (CmrDocument.pallets_deposited_at c)) 9 false 0);;
     when (truthy_str (CmrDocument.pallets_final_balance c))
       (addWrapped ("Final Balance: "
                    +:+ show (CmrDocument.pallets_final_balance c))
          contentWidth);;
     advance 3).

(** SECTION: DOCUMENTS (Box 5) *)
Definition attachedDocuments (c : CmrDocument.t) : Gen unit :=
  when (truthy_str (CmrDocument.attached_documents c))
    (addSection "ATTACHED DOCUMENTS" "5";;
     addWrapped (show (CmrDocument.attached_documents c)) contentWidth;;
     advance 3).

(** SECTION: INSTRUCTIONS (Boxes 16-17) *)
Definition instructionsSection (c : CmrDocument.t) : Gen unit :=
  when (truthy_str (CmrDocument.instructions c)
        || truthy_str (CmrDocument.customs_instructions c))
    (addSection "INSTRUCTIONS" "16-17";;
     (* Box 16: Sender's instructions *)
     when (truthy_str (CmrDocument.instructions c))
       (addSubSection
          "16. Sender's Instructions (Instructions de l'expéditeur)" 10;;
        addWrapped (show (CmrDocument.instructions c)) contentWidth;;
        advance 2);;
     (* Box 17: Customs instructions *)
     when (truthy_str (CmrDocument.customs_instructions c))
       (addSubSection
          "17. Customs Instructions (Instructions douanières)" 10;;
        addWrapped (show (CmrDocument.customs_instructions c)) contentWidth;;
        advance 2);;
     advance 1).

(** SECTION: FINANCIAL INFORMATION (Boxes 20-21) *)
Definition financial (c : CmrDocument.t) : Gen unit :=
  let hasFinancial :=
    truthy_num (CmrDocument.cash_on_delivery_amount c)
    || truthy_num (CmrDocument.freight_total_amount c)
    || truthy_str (CmrDocument.freight_terms c) in
  when hasFinancial
    (addSection "FINANCIAL INFORMATION" "20-21";;
     (* Box 20: Cash on Delivery *)
     when (positive (CmrDocument.cash_on_delivery_amount c))
       (checkPageBreak 12;;
        (* Draw warning box for COD *)
        doc (JsPdf.setFillColor 254 249 195);;
        doc (JsPdf.setDrawColor 250 204 21);;
        let boxHeight := 10 in
        withY (fun yPos =>
                 JsPdf.rect leftMargin yPos contentWidth boxHeight "FD");;
        advance 4;;
        addSubSection "20. Cash on Delivery (Contre-Remboursement)" 10;;
        retreat 1;;
        addText ("  Amount: "
                 +:+ num (CmrDocument.cash_on_delivery_amount c) +:+ " "
                 +:+ (if truthy_str (CmrDocument.cash_on_delivery_currency c)
                      then show (CmrDocument.cash_on_delivery_currency c)
                      else "EUR")) 10 true 0;;
        advance 4);;
     (* Box 21: Freight charges *)
     when (truthy_num (CmrDocument.freight_total_amount c)
           || truthy_str (CmrDocument.freight_terms c))
       (addSubSection "21. Freight Charges (Port et frais)" 10;;
        when (truthy_num (CmrDocument.freight_total_amount c))
          (addText ("Amount: "
                    +:+ num (CmrDocument.freight_total_amount c) +:+ " "
                    +:+ (if truthy_str (CmrDocument.freight_currency c)
                         then show (CmrDocument.freight_currency c)
                         else "EUR")) 9 false 0);;
        when (truthy_str (CmrDocument.freight_terms c))
          (addText ("Terms: " +:+ show (CmrDocument.freight_terms c)) 9 false 0);;
        advance 2);;
     advance 1).

(** SECTION: PHOTOS *)
Definition photoPlaceholder : Gen unit :=
  doc (JsPdf.setFont "helvetica" "italic");;
  doc (JsPdf.setFontSize 8);;
  withY (fun yPos => JsPdf.text "[Photo not available]" leftMargin yPos None);;
  advance lineHeight.

Definition photosSection (ps : list PhotoWithUrl) : Gen unit :=
  when (0 <? length ps)%nat
    (addSection "PHOTOS" "";;
     addText (pretty (length ps) +:+ " photo(s) attached") 9 false 0;;
     advance 2;;
     for_each ps (fun photo =>
       when (truthy_str (photoUrl photo))
         (embedImage (photoUrl photo) 70 "JPEG" leftMargin 90 65
            photoPlaceholder));;
     advance 3).

(** One reserve: bold type label, wrapped comment, optional photo.  The
    [catch] of the photo only logs. *)
Definition reserveBlock (r : ReserveWithUrl) : Gen unit :=
  checkPageBreak 35;;
  doc (JsPdf.setFontSize 9);;
  doc (JsPdf.setFont "helvetica" "bold");;
  withY (fun yPos =>
           JsPdf.text ("• " +:+ CmrReserve.reserve_type (reserve r))
             (leftMargin + 3) yPos None);;
  advance lineHeight;;
  when (truthy_str (CmrReserve.comment (reserve r)))
    (doc (JsPdf.setFont "helvetica" "normal");;
     commentLines ← splitText (show (CmrReserve.comment (reserve r)))
                       (contentWidth - 8);
     for_each commentLines (fun line =>
       checkPageBreak lineHeight;;
       withY (fun yPos => JsPdf.text line (leftMargin + 6) yPos None);;
       advance lineHeight));;
  (* Add photo if available *)
  when (truthy_str (reservePhotoUrl r))
    (embedImage (reservePhotoUrl r) 50 "JPEG" (leftMargin + 6) 60 45
       (mret tt));;
  advance 2.

(** SECTION: RESERVES (Box 23-24) *)
Definition reservesSection (rs : list ReserveWithUrl) : Gen unit :=
  when (0 <? length rs)%nat
    (addSection "RESERVES & OBSERVATIONS" "23-24";;
     let loadingReserves :=
       filter (fun r => CmrReserve.side (reserve r) = "loading") rs in
     let deliveryReserves :=
       filter (fun r => CmrReserve.side (reserve r) = "delivery") rs in
     (* Box 23: Loading reserves *)
     when (0 <? length loadingReserves)%nat
       (addSubSection "23. Reserves at Loading (Réserves au chargement)" 10;;
        advance 1;;
        for_each loadingReserves reserveBlock;;
        advance 2);;
     (* Box 24: Delivery reserves *)
     when (0 <? length deliveryReserves)%nat
       (addSubSection "24. Reserves at Delivery (Réserves à la livraison)" 10;;
        advance 1;;
        for_each deliveryReserves reserveBlock);;
     advance 3).

(** SECTION: SIGNATURES *)
Definition signaturePlaceholder : Gen unit :=
  doc (JsPdf.setFont "helvetica" "italic");;
  doc (JsPdf.setFontSize 8);;
  withY (fun yPos =>
           JsPdf.text "[Signature image not available]" leftMargin yPos None);;
  advance lineHeight.

(** The part the shipper and the consignee blocks have in common. *)
Definition signatureBlock (title : string) (s : SignatureWithUrl) : Gen unit :=
  checkPageBreak 55;;
  addSubSection title 10;;
  advance 1;;
  when (truthy_str (CmrSignature.signer_name (signature s)))
    (addText ("Name: " +:+ show (CmrSignature.signer_name (signature s)))
       9 true 0);;
  when (truthy_str (CmrSignature.signer_role (signature s)))
    (addText ("Role: " +:+ show (CmrSignature.signer_role (signature s)))
       9 false 0);;
  when (truthy_str (CmrSignature.signer_email (signature s)))
    (addText ("Email: " +:+ show (CmrSignature.signer_email (signature s)))
       9 false 0);;
  addText ("Signed: "
           +:+ formatDate rt LongDateTime (CmrSignature.created_at (signature s)))
    9 false 0;;
  advance 2;;
  when (truthy_str (signatureUrl s))
    (embedImage (signatureUrl s) 35 "PNG" leftMargin 80 30
       signaturePlaceholder).

Definition signaturesSection (shipper consignee : option SignatureWithUrl)
  : Gen unit :=
  addSection "SIGNATURES" "";;
  match shipper with
  | Some s =>
      signatureBlock
        "Shipper / Sender Signature (Signature de l'expéditeur)" s;;
      advance 5
  | None => mret tt
  end;;
  match consignee with
  | Some s =>
      signatureBlock
        "Consignee / Receiver Signature (Signature du destinataire)" s
  | None => mret tt
  end.

(** FOOTER - Legal notice and page numbers.  [clock i] is the value of
    [new Date()] when page [i] is stamped. *)
Definition footerOf (clock : nat → string) (totalPages i : nat) : Gen unit :=
  doc (JsPdf.setPage i);;
  let footerY := pageHeight rt - 10 in
  (* Legal notice *)
  doc (JsPdf.setFontSize 7);;
  doc (JsPdf.setFont "helvetica" "italic");;
  doc (JsPdf.setTextColor 100 100 100);;
  doc (JsPdf.text
         "This digital CMR document is a legally valid transport contract under the CMR Convention"
         (pageWidth rt / 2) (footerY - 3) (Some "center"));;
  (* Generation date and page number *)
  doc (JsPdf.setFontSize 8);;
  doc (JsPdf.text
         ("Generated on " +:+ formatDate rt LongDateTime (clock i)
          +:+ " - Page " +:+ pretty i +:+ " of " +:+ pretty totalPages)
         (pageWidth rt / 2) footerY (Some "center")).

Definition footer (clock : nat → string) : Gen unit :=
  fun st =>
    let totalPages := JsPdf.numberOfPages (pdf st) in
    for_each (seq 1 totalPages) (footerOf clock totalPages) st.

(** Everything before the footer pass. *)
Definition body (o : GeneratePdfOptions) : Gen unit :=
  header (cmr o);;
  parties (cmr o) (profile o);;
  loadingAndDelivery (cmr o);;
  goods (cmr o);;
  dangerousGoods (cmr o);;
  temperatureControl (cmr o);;
  pallets (cmr o);;
  attachedDocuments (cmr o);;
  instructionsSection (cmr o);;
  financial (cmr o);;
  photosSection (photos o);;
  reservesSection (reserves o);;
  signaturesSection (shipperSignature o) (consigneeSignature o).

Definition generateCmrPdf (clock : nat → string) (o : GeneratePdfOptions)
  : JsPdf.t :=
  pdf (snd ((body o;; footer clock) {| pdf := JsPdf.create; yPos := 15 |})).

End Generator.

(** *** What the footer pass writes *)

Definition footerFont (size : Q) : JsPdf.Font :=
  {| JsPdf.family := "helvetica"; JsPdf.style := "italic"; JsPdf.size := size |}.

Definition legalNotice (rt : Runtime) : JsPdf.Op :=
  JsPdf.Text
    "This digital CMR document is a legally valid transport contract under the CMR Convention"
    (pageWidth rt / 2) (pageHeight rt - 10 - 3) (Some "center")
    (footerFont 7) (100, 100, 100)%Z.

(** The last line of page [i] of [n], generated at [timestamp]. *)
Definition stamp (rt : Runtime) (timestamp : string) (i n : nat) : JsPdf.Op :=
  JsPdf.Text
    ("Generated on " +:+ timestamp
     +:+ " - Page " +:+ pretty i +:+ " of " +:+ pretty n)
    (pageWidth rt / 2) (pageHeight rt - 10) (Some "center")
    (footerFont 8) (100, 100, 100)%Z.

(** Two pages with the same content, the timestamp of the last line apart. *)
Definition same_but_timestamp (rt : Runtime) (n : nat)
    (p1 p2 : list JsPdf.Op) : Prop :=
  ∃ content i t1 t2,
    p1 = content ++ [stamp rt t1 i n] ∧ p2 = content ++ [stamp rt t2 i n].

End PdfGenerator.

(* ===================================================================== *)
(** ** Vocabulary of the specification *)
(* ===================================================================== *)

Module Lifecycle.
Import Supabase CmrActions.

(** The [CmrActionType] union type. *)
Inductive CmrActionType : Type :=
| loading_start
| loading_end
| delivery_start
| delivery_end.

Definition tag (a : CmrActionType) : string :=
  match a with
  | loading_start => "loading_start"
  | loading_end => "loading_end"
  | delivery_start => "delivery_start"
  | delivery_end => "delivery_end"
  end.

(** The order of the specification:
    ready_to_load < loading < in_transit < ready_to_deliver
      < {completed, completed_with_reserves}, with draft before them. *)
Definition status_rank (s : string) : nat :=
  if String.eqb s "ready_to_load" then 1
  else if String.eqb s "loading" then 2
  else if String.eqb s "in_transit" then 3
  else if String.eqb s "ready_to_deliver" then 4
  else if String.eqb s "completed" then 5
  else if String.eqb s "completed_with_reserves" then 5
  else 0.

(** Rank of the status an action writes. *)
Definition target_rank (a : CmrActionType) : nat :=
  match a with
  | loading_start => 2
  | loading_end => 3
  | delivery_start => 4
  | delivery_end => 5
  end.

(** The status column of a document, as a reader of the table sees it. *)
Definition status_of (cmrId : string) (w : World) : option string :=
  CmrDocument.status <$> cmr_documents (db w) !! cmrId.

Definition rank_of (cmrId : string) (w : World) : nat :=
  from_option status_rank 0%nat (status_of cmrId w).

(** The world after an action, whether it returned or threw. *)
Definition after (cmrId userId : string) (a : CmrActionType) (w : World)
  : World :=
  (performCmrAction cmrId userId (tag a) w).2.

(** The ranks observed after each action of a sequence. *)
Fixpoint observed (cmrId userId : string) (acts : list CmrActionType)
    (w : World) : list nat :=
  match acts with
  | [] => []
  | a :: rest =>
      rank_of cmrId (after cmrId userId a w)
      :: observed cmrId userId rest (after cmrId userId a w)
  end.

(** Every action of the sequence is invoked while the document's status
    is at or below the status the action writes. *)
Fixpoint invoked_forward (cmrId userId : string) (acts : list CmrActionType)
    (w : World) : Prop :=
  match acts with
  | [] => True
  | a :: rest =>
      (rank_of cmrId w ≤ target_rank a)%nat
      ∧ invoked_forward cmrId userId rest (after cmrId userId a w)
  end.

Fixpoint non_decreasing (l : list nat) : Prop :=
  match l with
  | x :: (y :: _) as rest => (x ≤ y)%nat ∧ non_decreasing rest
  | _ => True
  end.

(** The signature rows the gate of [loading_end] looks for. *)
Definition shipper_signatures (cmrId : string) (d : Db) : list CmrSignature.t :=
  filter (fun s => CmrSignature.cmr_id s = cmrId
                   ∧ CmrSignature.party_type s = "shipper")
         (cmr_signatures d).

(** Whether any reserve row, of either side, belongs to the document. *)
Definition reserves_exist (cmrId : string) (d : Db) : bool :=
  existsb (fun r => String.eqb (CmrReserve.cmr_id r) cmrId) (cmr_reserves d).

(** The service performs the [k] requests that follow. *)
Definition performs_next (k : nat) (w : World) : Prop :=
  ∀ i, (i < k)%nat →
       ∃ gid gat, replies w (length (calls w) + i) = Performed gid gat.

(** The requests an action sends when none is refused. *)
Definition requests_of (cmrId : string) (a : CmrActionType) : list Call :=
  match a with
  | loading_start =>
      [Insert "cmr_events"; Update "cmr_documents" [("id", cmrId)]]
  | loading_end =>
      [Select "cmr_signatures" [("cmr_id", cmrId); ("party_type", "shipper")];
       Insert "cmr_events"; Update "cmr_documents" [("id", cmrId)]]
  | delivery_start =>
      [Insert "cmr_events"; Update "cmr_documents" [("id", cmrId)]]
  | delivery_end =>
      [Select "cmr_reserves" [("cmr_id", cmrId)];
       Update "cmr_documents" [("id", cmrId)]; Insert "cmr_events"]
  end.

Definition is_write (c : Call) : bool :=
  match c with
  | Select _ _ => false
  | _ => true
  end.

(** The two store writes of an action, in the order they are sent. *)
Definition writes (l : list Call) : list Call := List.filter is_write l.

Definition event_then_status (cmrId : string) : list Call :=
  [Insert "cmr_events"; Update "cmr_documents" [("id", cmrId)]].

End Lifecycle.

(* ===================================================================== *)
(** ** Concrete inputs *)
(* ===================================================================== *)

Module Examples.
Import Supabase.

(** A document with the required columns filled in. *)
Definition document (status : string) : CmrDocument.t :=
  CmrDocument.mk "d1-0000-0000" "u1" None (Some false) status
    "Acme SA" (Some "1 rue de Lyon, Paris") "Bolt GmbH"
    (Some "Hafenstr. 2, Hamburg") None None None None
    "Paris" "2025-01-15" None None None
    "Hamburg" None None None None
    (Some "Machine parts") (Some 4%Q) (Some "Pallets") (Some 1200%Q)
    None None None None None None None None None None
    None None None None None None None None None None None None None
    None None None None None None None None.

Definition shipper_signature : CmrSignature.t :=
  CmrSignature.mk "s1" "d1-0000-0000" "u1" "shipper" (Some "Ana")
    (Some "Manager") None "d1-shipper-1.png" "2025-01-15T08:00:00Z".

Definition delivery_reserve : CmrReserve.t :=
  CmrReserve.mk "r1" "d1-0000-0000" "u1" "delivery" "Missing items"
    (Some "Two boxes short") None "2025-01-16T10:00:00Z".

Definition loading_reserve (photo : option string) : CmrReserve.t :=
  CmrReserve.mk "r2" "d1-0000-0000" "u1" "loading" "Damaged packaging"
    (Some "Torn wrap") photo "2025-01-15T09:00:00Z".

(** A service that performs every request. *)
Definition always_performs : nat → Reply :=
  fun n => Performed ("row-" +:+ pretty n) "2025-01-15T09:30:00Z".

(** A service that refuses the request number [k] only. *)
Definition refuses_at (k : nat) (msg : string) : nat → Reply :=
  fun n => if (n =? k)%nat then Refused {| message := msg |}
           else always_performs n.

Definition world (status : string) (sigs : list CmrSignature.t)
    (res : list CmrReserve.t) (answers : nat → Reply) : World :=
  {| db := {| cmr_documents := {[ "d1-0000-0000" := document status ]};
              cmr_events := [];
              cmr_signatures := sigs;
              cmr_reserves := res;
              cmr_photos := [] |};
     objects := ∅;
     replies := answers;
     calls := [];
     supabaseUrl := "https://project.supabase.co" |}.

(** The document on the road, its shipper signature on file. *)
Definition on_the_road : World :=
  world "in_transit" [shipper_signature] [] always_performs.

(** The document being loaded, not yet signed by the shipper. *)
Definition loading_unsigned : World :=
  world "loading" [] [] always_performs.

(** The document at the consignee's, one delivery reserve recorded. *)
Definition at_consignee : World :=
  world "ready_to_deliver" [shipper_signature] [delivery_reserve] always_performs.

(** A fresh document whose shipper signature is already on file. *)
Definition fresh_signed : World :=
  world "ready_to_load" [shipper_signature] [delivery_reserve] always_performs.


Definition photo_file : File := {| name := "pallet.front.jpg"; bytes := "JFIF" |}.

(** An A4 page in millimetres, text that never wraps, and a network on
    which only URLs starting with "https://ok/" can be fetched. *)
Definition runtime : PdfGenerator.Runtime :=
  {| PdfGenerator.pageWidth := 210%Q;
     PdfGenerator.pageHeight := 297%Q;
     PdfGenerator.splitTextToSize := fun _ s _ => [s];
     PdfGenerator.fetchDataUrl :=
       fun url => if String.prefix "https://ok/" url
                  then Some ("data:" +:+ url) else None;
     PdfGenerator.addImageAccepts := fun _ _ => true;
     PdfGenerator.formatDate := fun _ s => s;
     PdfGenerator.numberToString :=
       fun q => pretty (Qnum q) +:+ "/" +:+ pretty (Zpos (Qden q)) |}.

Definition clock_a : nat → string := fun _ => "2025-01-17T12:00:00Z".
Definition clock_b : nat → string := fun i => "2025-02-01T07:0" +:+ pretty i +:+ ":00Z".

Definition signed (s : CmrSignature.t) (url : option string)
  : PdfGenerator.SignatureWithUrl :=
  {| PdfGenerator.signature := s; PdfGenerator.signatureUrl := url |}.

Definition general_photo (url : option string) : PdfGenerator.PhotoWithUrl :=
  {| PdfGenerator.photo :=
       CmrPhoto.mk "p1" "d1-0000-0000" "u1" "u1/d1/1.jpg" "2025-01-15T09:10:00Z";
     PdfGenerator.photoUrl := url |}.

Definition aggregate (sig : option PdfGenerator.SignatureWithUrl)
    (res : list PdfGenerator.ReserveWithUrl)
    (ph : list PdfGenerator.PhotoWithUrl) : PdfGenerator.GeneratePdfOptions :=
  {| PdfGenerator.cmr := document "in_transit";
     PdfGenerator.profile := None;
     PdfGenerator.shipperSignature := sig;
     PdfGenerator.consigneeSignature := None;
     PdfGenerator.reserves := res;
     PdfGenerator.photos := ph |}.

(** A loading-side reserve whose photo URL cannot be fetched. *)
Definition reserve_photo_unreachable : PdfGenerator.GeneratePdfOptions :=
  aggregate None
    [ {| PdfGenerator.reserve := loading_reserve (Some "u1/d1/r2.jpg");
         PdfGenerator.reservePhotoUrl := Some "https://down/r2.jpg" |} ]
    [].

Definition photo_unreachable : PdfGenerator.GeneratePdfOptions :=
  aggregate None [] [ general_photo (Some "https://down/p1.jpg") ].

Definition signature_unreachable : PdfGenerator.GeneratePdfOptions :=
  aggregate (Some (signed shipper_signature (Some "https://down/s1.png"))) [] [].

(** The texts written on the pages of a document, page after page. *)
Definition texts (d : JsPdf.t) : list string :=
  omap (fun op => match op with
                  | JsPdf.Text s _ _ _ _ _ => Some s
                  | _ => None
                  end)
       (concat (JsPdf.pages d)).

(** The lines from the first occurrence of [marker] on. *)
Fixpoint from_line (marker : string) (l : list string) : list string :=
  match l with
  | [] => []
  | s :: rest => if String.eqb s marker then l else from_line marker rest
  end.

Definition is_placeholder (s : string) : bool :=
  String.eqb s "[Photo not available]"
  || String.eqb s "[Signature image not available]".

Definition placeholders (d : JsPdf.t) : list string :=
  List.filter is_placeholder (texts d).

End Examples.

(* ===================================================================== *)
(** ** cmr-actions.ts: what each action writes *)
(* ===================================================================== *)

Module Transitions.
Import Supabase Lifecycle.

(** The status an action writes; [has_reserves] matters to [delivery_end]
    only. *)
Definition written_status (a : CmrActionType) (has_reserves : bool) : string :=
  match a with
  | loading_start => "loading"
  | loading_end => "in_transit"
  | delivery_start => "ready_to_deliver"
  | delivery_end => if has_reserves then "completed_with_reserves" else "completed"
  end.

(** The metadata of the event an action inserts. *)
Definition event_metadata (a : CmrActionType) (has_reserves : bool)
  : list (string * Json) :=
  match a with
  | delivery_end =>
      [("status", JString (written_status delivery_end has_reserves));
       ("has_reserves", JBool has_reserves)]
  | _ => []
  end.

(** How many requests an action sends before its first write. *)
Definition reads_before_writing (a : CmrActionType) : nat :=
  match a with
  | loading_end | delivery_end => 1
  | _ => 0
  end.

(** The gate of an action: only [loading_end] has one. *)
Definition gate_open (cmrId : string) (a : CmrActionType) (d : Db) : Prop :=
  a = loading_end → shipper_signatures cmrId d ≠ [].

(** The event row an action inserts. *)
Definition event_row (gid gat cmrId userId : string) (a : CmrActionType)
    (has_reserves : bool) : CmrEvent.t :=
  CmrEvent.mk gid cmrId userId (tag a) (event_metadata a has_reserves) gat.

(** The document table after the status write of an action. *)
Definition status_written (cmrId : string) (a : CmrActionType) (d : Db)
  : gmap string CmrDocument.t :=
  alter (CmrDocument.with_status (written_status a (reserves_exist cmrId d)))
    cmrId (cmr_documents d).

(** The world after a sequence of actions, each run to its end. *)
Fixpoint run (cmrId userId : string) (acts : list CmrActionType) (w : World)
  : World :=
  match acts with
  | [] => w
  | a :: rest => run cmrId userId rest (after cmrId userId a w)
  end.

Definition full_cycle : list CmrActionType :=
  [loading_start; loading_end; delivery_start; delivery_end].

End Transitions.

(* ===================================================================== *)
(** ** What the document page lets the user trigger
    (components/cmr/status-actions.tsx, app/(protected)/cmr/[id]/page.tsx) *)
(* ===================================================================== *)

Module DetailsPage.
Import Supabase Lifecycle.

(** The buttons [StatusActions] renders for [currentStatus]. *)
Definition statusActionButtons (currentStatus : string) : list CmrActionType :=
  (* Don't show actions if CMR is completed *)
  if String.eqb currentStatus "completed"
     || String.eqb currentStatus "completed_with_reserves"
  then []
  else
    (if String.eqb currentStatus "ready_to_load" then [loading_start] else [])
    ++ (if String.eqb currentStatus "loading" then [loading_end] else [])
    ++ (if String.eqb currentStatus "in_transit" then [delivery_start] else []).

(** The signature sections the page renders, by party type. *)
Definition signatureSections (status : string) : list string :=
  (if String.eqb status "loading" then ["shipper"] else [])
  ++ (if String.eqb status "ready_to_deliver" then ["consignee"] else []).

(** Saving a signature invokes [delivery_end] for the consignee only. *)
Definition actionOnSignature (partyType : string) : list CmrActionType :=
  if String.eqb partyType "consignee" then [delivery_end] else [].

(** Every action the page can invoke on a document in [status]. *)
Definition triggerable (status : string) : list CmrActionType :=
  statusActionButtons status
  ++ concat (actionOnSignature <$> signatureSections status).

(** Each action of the sequence is one the page offers for the status the
    document has when the action is invoked. *)
Fixpoint driven_by_page (cmrId userId : string) (acts : list CmrActionType)
    (w : World) : Prop :=
  match acts with
  | [] => True
  | a :: rest =>
      (∃ s, status_of cmrId w = Some s ∧ a ∈ triggerable s)
      ∧ driven_by_page cmrId userId rest (after cmrId userId a w)
  end.

End DetailsPage.

(* ===================================================================== *)
(** ** status-helpers.ts: the badge helpers *)
(* ===================================================================== *)

Module StatusBadges.
Import StatusHelpers.

(** [\w] of a JavaScript regular expression without the [u] flag. *)
Definition is_word_char (c : ascii) : bool :=
  let n := nat_of_ascii c in
  ((48 <=? n) && (n <=? 57) || (65 <=? n) && (n <=? 90)
   || (97 <=? n) && (n <=? 122) || (n =? 95))%nat.

(** [s.replace(/\b\w/g, l => l.toUpperCase())]: [prev_word] tells whether
    the character before is a word character. *)
Fixpoint capitalize_words (prev_word : bool) (s : string) : string :=
  match s with
  | EmptyString => EmptyString
  | String c rest =>
      String (if is_word_char c && negb prev_word then Js.upper_char c else c)
             (capitalize_words (is_word_char c) rest)
  end.

(** [status.replace(/_/g, ' ').replace(/\b\w/g, l => l.toUpperCase())] *)
Definition getStatusLabel (status : string) : string :=
  capitalize_words false (Js.underscores_to_spaces status).


Definition getStatusColor (status : string) : string :=
  if String.eqb status "completed" then "bg-green-100 text-green-800 border-green-200"
  else if String.eqb status "completed_with_reserves"
  then "bg-yellow-100 text-yellow-800 border-yellow-200"
  else if String.eqb status "in_transit" then "bg-blue-100 text-blue-800 border-blue-200"
  else if String.eqb status "loading" then "bg-purple-100 text-purple-800 border-purple-200"
  else if String.eqb status "ready_to_load"
  then "bg-orange-100 text-orange-800 border-orange-200"
  else if String.eqb status "ready_to_deliver"
  then "bg-indigo-100 text-indigo-800 border-indigo-200"
  else if String.eqb status "draft" then "bg-gray-100 text-gray-800 border-gray-200"
  else "bg-gray-100 text-gray-800 border-gray-200".

(** Whether the character [x] occurs in [s]. *)
Fixpoint has_char (x : ascii) (s : string) : bool :=
  match s with
  | EmptyString => false
  | String c rest => Ascii.eqb c x || has_char x rest
  end.

End StatusBadges.

(* ===================================================================== *)
(** ** The dashboard lists (DashboardPage, [fetchCmrs]) *)
(* ===================================================================== *)

Module Dashboard.
Import StatusHelpers.

(** [cmrsWithVehicle.filter(cmr => isInProgress(cmr.status))] *)
Definition inProgressCmrs (data : list CmrDocument.t) : list CmrDocument.t :=
  List.filter (fun cmr => isInProgress (CmrDocument.status cmr)) data.

(** [cmrsWithVehicle.filter(cmr => !isInProgress(cmr.status)).slice(0, 10)] *)
Definition completedCmrs (data : list CmrDocument.t) : list CmrDocument.t :=
  take 10 (List.filter (fun cmr => negb (isInProgress (CmrDocument.status cmr))) data).

End Dashboard.

(* ===================================================================== *)
(** ** onboarding-check.ts and its two callers *)
(* ===================================================================== *)

Module OnboardingCheck.
Import Supabase.

Record OnboardingStatus : Type := {
  hasProfile : bool;
  hasVehicles : bool;
  isComplete : bool;
}.

(** What the [catch] block returns. *)
Definition nothing_done : OnboardingStatus :=
  {| hasProfile := false; hasVehicles := false; isComplete := false |}.


Definition getOnboardingRedirectPath (status : OnboardingStatus) : option string :=
  if isComplete status then None
  else if negb (hasProfile status) then Some "/onboarding/profile"
  else if negb (hasVehicles status) then Some "/onboarding/vehicles"
  else None.

(** What a page check does with the router. *)
Inductive Navigation : Type :=
| Stay
| Push (path : string).

(** [OnboardingGuard], the effect [checkOnboarding]; [status] is what
    [checkOnboardingStatus(user.id)] resolves to. *)
Definition checkOnboarding (pathname : option string) (user : option string)
    (status : OnboardingStatus) : Navigation :=
  (* Skip check if on onboarding pages *)
  if match pathname with
     | Some p => String.prefix "/onboarding" p
     | None => false
     end
  then Stay
  else
    match user with
    | None => Push "/login"
    | Some _ =>
        match getOnboardingRedirectPath status with
        | Some redirectPath => Push redirectPath
        | None => Stay
        end
    end.

(** [VehiclesOnboardingPage], the effect [checkAuth]. *)
Definition checkAuth (user : option string) (status : OnboardingStatus)
  : Navigation :=
  match user with
  | None => Push "/login"
  | Some _ =>
      if negb (hasProfile status) then Push "/onboarding/profile" else Stay
  end.

End OnboardingCheck.

(* ===================================================================== *)
(** ** Ordered queries *)
(* ===================================================================== *)

Module Postgrest.

(** [a] comes before [b] under [order(column, { ascending: false })].  The
    column is a timestamp, compared as the ISO 8601 text the table holds. *)
Definition later {A} (column : A → string) (a b : A) : Prop :=
  Is_true (String.leb (column b) (column a)).

#[export] Instance later_dec {A} (column : A → string) (a b : A)
  : Decision (later column a b) := Is_true_dec _.

Definition order_desc {A} (column : A → string) (rows : list A) : list A :=
  merge_sort (later column) rows.

End Postgrest.

(* ===================================================================== *)
(** ** photo-upload.ts: listing and deleting *)
(* ===================================================================== *)

Module PhotoList.
Import Supabase PhotoUpload.

(** [from('cmr_photos').select('*').eq('cmr_id', c)
      .order('created_at', { ascending: false })] *)
Definition select_photos (cmrId : string) : Async (Response (list CmrPhoto.t)) :=
  bind (request (Select "cmr_photos" [("cmr_id", cmrId)]))
    (fun r w =>
       match r with
       | Refused e => (Returned (failed e), w)
       | Performed _ _ =>
           let rows :=
             filter (fun p => CmrPhoto.cmr_id p = cmrId) (cmr_photos (db w)) in
           (Returned (ok (Some (Postgrest.order_desc CmrPhoto.created_at rows))), w)
       end).

(** [{ ...photo, url: urlData.publicUrl }] *)
Definition withPublicUrl (base : string) (photo : CmrPhoto.t) : PhotoWithUrl :=
  {| photoRecord := Some photo;
     url := base +:+ "/storage/v1/object/public/" +:+ "cmr-photos" +:+ "/"
            +:+ CmrPhoto.storage_path photo |}.

Definition fetchCmrPhotos (cmrId : string) : Async (list PhotoWithUrl) :=
  try_catch
    (r ← select_photos cmrId;
     match error r with
     | Some e => throw (ThrowError ("Failed to fetch photos: " +:+ message e))
     | None => ret tt
     end;;
     match data r with
     | None =>
         throw (ThrowError "Cannot read properties of null (reading 'map')")
     | Some rows =>
         (* Add public URLs to each photo *)
         (fun w => (Returned (withPublicUrl (supabaseUrl w) <$> rows), w))
           : Async (list PhotoWithUrl)
     end)
    (fun error => throw error).

(** Whether a dot occurs in [s]. *)
Fixpoint has_dot (s : string) : bool :=
  match s with
  | EmptyString => false
  | String c rest => Ascii.eqb c "." || has_dot rest
  end.

End PhotoList.

Module PhotoDelete.
Import Supabase.

(** [from('cmr_photos').delete().eq('id', photoId)].  The journal of
    requests has no name for a row deletion: the service's answer to it
    is the argument [answer]. *)
Definition delete_photo_row (answer : Reply) (photoId : string)
  : Async (Response unit) :=
  fun w =>
    match answer with
    | Refused e => (Returned (failed e), w)
    | Performed _ _ =>
        (Returned (ok None),
         set_db (fun d =>
           {| cmr_documents := cmr_documents d;
              cmr_events := cmr_events d;
              cmr_signatures := cmr_signatures d;
              cmr_reserves := cmr_reserves d;
              cmr_photos :=
                filter (fun p => CmrPhoto.id p ≠ photoId) (cmr_photos d) |}) w)
    end.

Definition deleteCmrPhoto (answer : Reply) (photoId storagePath : string)
  : Async unit :=
  try_catch
    ((* Delete from Storage *)
     rm ← storage_remove "cmr-photos" [storagePath];
     (* storageError: Continue anyway to delete from database *)
     (* Delete from database *)
     del ← delete_photo_row answer photoId;
     match error del with
     | Some dbError =>
         throw (ThrowError ("Failed to delete photo: " +:+ message dbError))
     | None => ret tt
     end)
    (fun error => throw error).

End PhotoDelete.

(* ===================================================================== *)
(** ** components/cmr/photos-section.tsx: adding a photo *)
(* ===================================================================== *)

Module PhotosSection.
Import Supabase PhotoUpload.

(** The [File] the input element hands over. *)
Record Picked : Type := { file : File; type : string; size : N }.

(** The [photos] and [error] state of the component. *)
Record State : Type := { photos : list PhotoWithUrl; error : option string }.

Definition setError (msg : string) (st : State) : State :=
  {| photos := photos st; error := Some msg |}.

(** [handleFileChange]: [picked] is [event.target.files?.[0]].  The
    handler catches what the upload throws, so it always returns.
    [uploadCmrPhoto] throws [Error] objects only; for any other value the
    handler shows its fixed message. *)
Definition handleFileChange (timestamp : N) (randomString : string)
    (picked : option Picked) (user : option string) (cmrId : string)
    (st : State) (w : World) : State * World :=
  match picked, user with
  | Some f, Some userId =>
      (* Validate file type *)
      if negb (String.prefix "image/" (type f)) then
        (setError "Please select an image file" st, w)
      (* Validate file size (max 10MB) *)
      else if (10 * 1024 * 1024 <? size f)%N then
        (setError "Image must be less than 10MB" st, w)
      (* Check photo limit (max 3 photos) *)
      else if (3 <=? length (photos st))%nat then
        (setError "Maximum 3 photos allowed per CMR" st, w)
      else
        match uploadCmrPhoto timestamp randomString (file f) cmrId userId w with
        | (Returned newPhoto, w') =>
            ({| photos := newPhoto :: photos st; error := None |}, w')
        | (Threw (ThrowError msg), w') => (setError msg st, w')
        | (Threw (ThrowService _), w') => (setError "Failed to upload photo" st, w')
        end
  | _, _ => (st, w)
  end.

End PhotosSection.

(* ===================================================================== *)
(** ** components/cmr/signature-section-unified.tsx: saving a signature *)
(* ===================================================================== *)

Module SignatureCapture.
Import Supabase CmrActions.

(** What [setSignature] receives: [{ ...signatureData, url }]. *)
Record Signature : Type := {
  signatureData : option CmrSignature.t;
  url : string;
}.

(** [from('cmr_signatures').insert({ ... }).select().single()] *)
Definition insert_signature
    (cmrId userId storagePath partyType : string)
    (signer_name signer_role signer_email : option string)
  : Async (Response CmrSignature.t) :=
  bind (request (Insert "cmr_signatures"))
    (fun r w =>
       match r with
       | Refused e => (Returned (failed e), w)
       | Performed gid gat =>
           let row :=
             CmrSignature.mk gid cmrId userId partyType
               signer_name signer_role signer_email storagePath gat in
           (Returned (ok (Some row)),
            set_db (fun d =>
              {| cmr_documents := cmr_documents d;
                 cmr_events := cmr_events d;
                 cmr_signatures := cmr_signatures d ++ [row];
                 cmr_reserves := cmr_reserves d;
                 cmr_photos := cmr_photos d |}) w)
       end).

(** [`${cmrId}-${partyType}-${Date.now()}.png`] *)
Definition fileName (cmrId partyType : string) (timestamp : N) : string :=
  cmrId +:+ "-" +:+ partyType +:+ "-" +:+ pretty timestamp +:+ ".png".

(** [handleSaveSignature].  [timestamp] is the reading of [Date.now()];
    [signer_name], [signer_role] and [signer_email] are the values of
    [signerName.trim() || null] and the like; [urlData] is the answer to
    [createSignedUrl(uploadData.path, 3600)], a request that changes no
    store.  The result is what [setSignature] receives, [None] when it is
    not called.  The error banner and the parent's refresh are left out. *)
Definition handleSaveSignature (timestamp : N) (urlData : option string)
    (user : option string) (cmrId partyType : string)
    (signer_name signer_role signer_email : option string)
    (signatureBlob : File) : Async (option Signature) :=
  match user with
  | None => ret None
  | Some userId =>
      try_catch
        ((* Upload signature to storage *)
         up ← storage_upload "cmr-signatures"
                (fileName cmrId partyType timestamp) signatureBlob;
         match error up with
         | Some uploadError => throw (ThrowService uploadError)
         | None => ret tt
         end;;
         match data up with
         | None =>
             throw (ThrowError "Cannot read properties of null (reading 'path')")
         | Some path =>
             (* Insert signature record *)
             ins ← insert_signature cmrId userId path partyType
                     signer_name signer_role signer_email;
             match error ins with
             | Some insertError =>
                 (* Clean up uploaded file if insert fails *)
                 storage_remove "cmr-signatures" [path];;
                 throw (ThrowService insertError)
             | None => ret tt
             end;;
             (* For consignee signature, update final status *)
             (if String.eqb partyType "consignee"
              then performCmrAction cmrId userId "delivery_end"
              else ret tt);;
             (* Get signed URL *)
             ret (match urlData with
                  | Some signedUrl =>
                      Some {| signatureData := data ins; url := signedUrl |}
                  | None => None
                  end)
         end)
        (fun err => throw err)
  end.

(** The world after the upload and the insert of a capture, both
    performed. *)
Definition signed_world (cmrId userId partyType : string)
    (name role email : option string) (path : string) (blob : File)
    (gid gat : string) (w : World) : World :=
  set_db (fun d =>
    {| cmr_documents := cmr_documents d;
       cmr_events := cmr_events d;
       cmr_signatures :=
         cmr_signatures d
         ++ [CmrSignature.mk gid cmrId userId partyType name role email path gat];
       cmr_reserves := cmr_reserves d;
       cmr_photos := cmr_photos d |})
    (record_call (Insert "cmr_signatures")
       (set_objects (insert ("cmr-signatures", path) blob)
          (record_call (Upload "cmr-signatures" path) w))).

End SignatureCapture.

(* ===================================================================== *)
(** ** signature-upload.ts *)
(* ===================================================================== *)

Module SignatureUpload.
Import Supabase.

(** What [fetchCmrSignature] returns: [{ ...data, url }], [url] being
    [null] when no signed URL could be made. *)
Record SignatureWithUrl : Type := {
  data : CmrSignature.t;
  url : option string;
}.

(** The filters of the query; [party_type] is added for a truthy
    [partyType] only. *)
Definition filters (cmrId : string) (partyType : option string)
  : list (string * string) :=
  ("cmr_id", cmrId)
  :: (if Js.truthy_str partyType then [("party_type", Js.show partyType)]
      else []).

(** The rows the query selects. *)
Definition selected (cmrId : string) (partyType : option string) (d : Db)
  : list CmrSignature.t :=
  filter (fun s => CmrSignature.cmr_id s = cmrId
                   ∧ (Js.truthy_str partyType = true
                      → CmrSignature.party_type s = Js.show partyType))
         (cmr_signatures d).

(** [query.order('created_at', { ascending: false }).limit(1).maybeSingle()] *)
Definition select_latest_signature (cmrId : string) (partyType : option string)
  : Async (Response CmrSignature.t) :=
  bind (request (Select "cmr_signatures" (filters cmrId partyType)))
    (fun r w =>
       match r with
       | Refused e => (Returned (failed e), w)
       | Performed _ _ =>
           (Returned
              (ok (head (Postgrest.order_desc CmrSignature.created_at
                           (selected cmrId partyType (db w))))), w)
       end).

(** [urlData] is the answer to [createSignedUrl(data.storage_path, 3600)],
    a request that changes no store and is sent only when a row was
    found. *)
Definition fetchCmrSignature (urlData : option string) (cmrId : string)
    (partyType : option string) : Async (option SignatureWithUrl) :=
  try_catch
    (r ← select_latest_signature cmrId partyType;
     match error r with
     | Some e => throw (ThrowError ("Failed to fetch signature: " +:+ message e))
     | None => ret tt
     end;;
     match Supabase.data r with
     | None => ret None
     | Some row =>
         (* Get signed URL (more secure than public URL) *)
         match urlData with
         | None => ret (Some {| data := row; url := None |})
         | Some signedUrl => ret (Some {| data := row; url := Some signedUrl |})
         end
     end)
    (fun error => throw error).

End SignatureUpload.

(* ===================================================================== *)
(** ** Where the drawing calls land on a page *)
(* ===================================================================== *)

Module PageGeometry.
Import JsPdf.
Local Open Scope Q_scope.

(** The lowest point a drawing call reaches, in millimetres from the top:
    the baseline of a text, the lower edge of a box or an image, the lower
    end of a line. *)
Definition bottom (op : Op) : Q :=
  match op with
  | Rect _ y _ h _ _ _ => y + h
  | Text _ _ y _ _ _ => y
  | Line _ y1 _ y2 _ => if Qle_bool y1 y2 then y2 else y1
  | Image _ _ _ y _ h => y + h
  end.

(** Everything drawn so far, on any page, ends at or above [limit]. *)
Definition within (limit : Q) (d : t) : Prop :=
  Forall (Forall (fun op => bottom op <= limit)) (pages d).

End PageGeometry.

(* ===================================================================== *)
(** ** More concrete inputs *)
(* ===================================================================== *)

Module Scenarios.
Import Supabase.

(** A fresh document and a service that refuses the request number [k]. *)
Definition refused_at (k : nat) : World :=
  Examples.world "ready_to_load" [] [] (Examples.refuses_at k "connection lost").

(** The document at the consignee's; the third request is refused. *)
Definition completion_refused : World :=
  Examples.world "ready_to_deliver" [Examples.shipper_signature] []
    (Examples.refuses_at 2 "connection lost").

(** The drawing of a signature. *)
Definition signature_blob : File := {| name := "blob"; bytes := "PNG" |}.

(** What the upload of [Examples.photo_file] returns on
    [Examples.loading_unsigned]. *)
Definition uploaded_row : CmrPhoto.t :=
  CmrPhoto.mk "row-1" "d1-0000-0000" "u1"
    "u1/d1-0000-0000/1736930000000_k3x9a.jpg" "2025-01-15T09:30:00Z".

Definition uploaded_photo : PhotoUpload.PhotoWithUrl :=
  {| PhotoUpload.photoRecord := Some uploaded_row;
     PhotoUpload.url :=
       "https://project.supabase.co/storage/v1/object/public/cmr-photos/u1/d1-0000-0000/1736930000000_k3x9a.jpg" |}.

(** The world after that upload. *)
Definition after_upload : World :=
  (PhotoUpload.uploadCmrPhoto 1736930000000 "k3x9a" Examples.photo_file
     "d1-0000-0000" "u1" Examples.loading_unsigned).2.

(** A picture of 200 kB picked in the file dialog. *)
Definition picked_photo : PhotosSection.Picked :=
  {| PhotosSection.file := Examples.photo_file;
     PhotosSection.type := "image/jpeg";
     PhotosSection.size := 204800 |}.

(** The photo section showing three photos. *)
Definition full_section : PhotosSection.State :=
  {| PhotosSection.photos := [uploaded_photo; uploaded_photo; uploaded_photo];
     PhotosSection.error := None |}.

Definition empty_section : PhotosSection.State :=
  {| PhotosSection.photos := []; PhotosSection.error := None |}.

(** Three documents of one carrier. *)
Definition documents : list CmrDocument.t :=
  [Examples.document "loading"; Examples.document "completed";
   Examples.document "draft"].

(** The first page before anything is drawn. *)
Definition blank_page : PdfGenerator.Layout :=
  {| PdfGenerator.pdf := JsPdf.create; PdfGenerator.yPos := 15 |}.

End Scenarios.

(* ===================================================================== *)
(** * Properties *)
(* ===================================================================== *)

(** Runs the asynchronous code down to the answers of the service. *)
Ltac run_async :=
  cbv beta iota zeta delta
    [CmrActions.startLoading CmrActions.endLoading CmrActions.startDelivery
     CmrActions.completeDelivery CmrActions.throw_if_error
     PhotoUpload.uploadCmrPhoto
     Supabase.select_signature_ids Supabase.select_reserve_ids
     Supabase.insert_event Supabase.update_document_status
     Supabase.insert_photo Supabase.storage_upload Supabase.storage_remove
     Supabase.getPublicUrl Supabase.request Supabase.try_catch
     mbind mret async_bind async_ret Supabase.bind Supabase.ret
     Supabase.throw Supabase.ok Supabase.failed
     Supabase.data Supabase.error fst snd].

(** Projections of a world after requests were logged and tables written. *)
Ltac world_simpl :=
  cbn [Supabase.db Supabase.objects Supabase.replies Supabase.calls
       Supabase.supabaseUrl Supabase.set_db Supabase.set_objects
       Supabase.record_call Supabase.cmr_documents Supabase.cmr_events
       Supabase.cmr_signatures Supabase.cmr_reserves Supabase.cmr_photos
       fst snd];
  rewrite ?length_app; cbn [length].

(* --------------------------------------------------------------------- *)
(** ** Status predicates *)
(* --------------------------------------------------------------------- *)

Section StatusFacts.
Import StatusHelpers.

Lemma in_progress_not_completed (x : string) :
  isInProgress x && isCompleted x = false.
Proof.
  unfold isInProgress, isCompleted, includes,
    IN_PROGRESS_STATUSES, COMPLETED_STATUSES.
  cbn [existsb].
  destruct (String.eqb_spec x "completed") as [->|_]; [reflexivity|].
  destruct (String.eqb_spec x "completed_with_reserves") as [->|_];
    [reflexivity|].
  cbn [orb]. apply andb_false_r.
Qed.

(** C9.  For each of the seven statuses exactly one of [isInProgress] and
    [isCompleted] answers true: no string is in both arrays, and the two
    arrays together list the whole enumeration. *)
Theorem status_partition (s : CmrStatus) :
  xorb (isInProgress (literal s)) (isCompleted (literal s)) = true
  ∧ (∀ x : string, isInProgress x && isCompleted x = false)
  ∧ literal <$> all_statuses = IN_PROGRESS_STATUSES ++ COMPLETED_STATUSES.
Proof.
  split; [by destruct s|]. split; [|reflexivity].
  exact in_progress_not_completed.
Qed.

End StatusFacts.

(* --------------------------------------------------------------------- *)
(** ** The lifecycle engine *)
(* --------------------------------------------------------------------- *)

Section LifecycleFacts.
Import Supabase CmrActions Lifecycle.

Lemma dispatch cmrId userId (a : CmrActionType) :
  performCmrAction cmrId userId (tag a)
  = match a with
    | loading_start => startLoading cmrId userId
    | loading_end => endLoading cmrId userId
    | delivery_start => startDelivery cmrId userId
    | delivery_end => completeDelivery cmrId userId
    end.
Proof. by destruct a. Qed.

Lemma performs_next_at k w i :
  performs_next k w → (i < k)%nat →
  ∃ gid gat, replies w (length (calls w) + i) = Performed gid gat.
Proof. intros H Hi. exact (H i Hi). Qed.

Lemma always_performs_next k status sigs res :
  performs_next k (Examples.world status sigs res Examples.always_performs).
Proof. intros i _. by eexists _, _. Defined.

(** What the one-row probe of [completeDelivery] finds. *)
Lemma reserve_probe cmrId (l : list CmrReserve.t) :
  match take 1 (CmrReserve.id <$> filter (λ s, CmrReserve.cmr_id s = cmrId) l) with
  | _ :: _ => true
  | [] => false
  end = existsb (λ r, String.eqb (CmrReserve.cmr_id r) cmrId) l.
Proof.
  induction l as [|r l IH]; [reflexivity|].
  rewrite filter_cons. cbn [existsb].
  destruct (String.eqb_spec (CmrReserve.cmr_id r) cmrId) as [E|E].
  - by rewrite decide_True.
  - by rewrite decide_False.
Qed.

(** What the one-row probe of [endLoading] finds when a row is there. *)
Lemma signature_probe cmrId (d : Db) :
  shipper_signatures cmrId d ≠ [] →
  ∃ x xs, take 1 (CmrSignature.id <$> shipper_signatures cmrId d) = x :: xs.
Proof.
  destruct (shipper_signatures cmrId d) as [|s rest]; [congruence|].
  intros _. by eexists _, _.
Qed.

(** C8.  A tag outside the four action names makes [performCmrAction]
    throw at once: the world is the one it was called in, so no request
    was sent and nothing was read or written. *)
Theorem unknown_action_fails_fast (cmrId userId type : string) (w : World) :
  type ≠ "loading_start" → type ≠ "loading_end" →
  type ≠ "delivery_start" → type ≠ "delivery_end" →
  performCmrAction cmrId userId type w
  = (Threw (ThrowError ("Unknown CMR action type: " +:+ type)), w).
Proof.
  intros H1 H2 H3 H4. unfold performCmrAction.
  repeat match goal with
         | |- context [String.eqb ?a ?b] =>
             destruct (String.eqb_spec a b); [congruence|]
         end.
  reflexivity.
Qed.

Lemma unknown_action_fails_fast_witness :
  performCmrAction "d1-0000-0000" "u1" "archive" Examples.on_the_road
  = (Threw (ThrowError "Unknown CMR action type: archive"), Examples.on_the_road).
Proof.
  apply (unknown_action_fails_fast "d1-0000-0000" "u1" "archive");
    discriminate.
Defined.

(** C1.  With no shipper signature row for the document, [loading_end]
    sends its probe and nothing else, throws, and leaves every table and
    the object storage as they were; when the probe is answered, what it
    throws is the error "Cannot end loading without shipper signature",
    and when the probe itself is refused it is the service's error. *)
Theorem loading_end_gate (cmrId userId : string) (w : World) :
  shipper_signatures cmrId (db w) = [] →
  ∃ t w',
    performCmrAction cmrId userId "loading_end" w = (Threw t, w')
    ∧ db w' = db w
    ∧ objects w' = objects w
    ∧ calls w' = calls w ++ [Select "cmr_signatures"
                               [("cmr_id", cmrId); ("party_type", "shipper")]]
    ∧ t = match replies w (length (calls w)) with
          | Performed _ _ =>
              ThrowError "Cannot end loading without shipper signature"
          | Refused e => ThrowService e
          end.
Proof.
  intros H. unfold shipper_signatures in H.
  change (performCmrAction cmrId userId "loading_end" w)
    with (endLoading cmrId userId w).
  run_async.
  destruct (replies w (length (calls w))) as [e|gid gat].
  - by eexists _, _.
  - world_simpl. rewrite H. by eexists _, _.
Qed.

Lemma loading_end_gate_witness :
  shipper_signatures "d1-0000-0000" (db Examples.loading_unsigned) = []
  ∧ ∃ w',
      performCmrAction "d1-0000-0000" "u1" "loading_end" Examples.loading_unsigned
      = (Threw (ThrowError "Cannot end loading without shipper signature"), w')
      ∧ cmr_events (db w') = []
      ∧ Lifecycle.status_of "d1-0000-0000" w' = Some "loading".
Proof.
  split; [reflexivity|].
  destruct (loading_end_gate "d1-0000-0000" "u1" Examples.loading_unsigned eq_refl)
    as (t & w' & Hrun & Hdb & _ & _ & Ht).
  exists w'. subst t. split; [exact Hrun|].
  unfold status_of. rewrite Hdb. split; reflexivity.
Defined.

(** C2.  When the service performs its three requests, [delivery_end]
    returns; the document's status is then [completed_with_reserves] if a
    reserve row of either side exists for the document and [completed]
    if none does, exactly one event row was added, of type
    [delivery_end], and its metadata records that status and whether
    reserves exist.  Nothing else is touched. *)
Theorem delivery_end_final_status (cmrId userId : string) (w : World)
    (doc : CmrDocument.t) :
  cmr_documents (db w) !! cmrId = Some doc →
  performs_next 3 w →
  let has_reserves := reserves_exist cmrId (db w) in
  let final_status :=
    if has_reserves then "completed_with_reserves" else "completed" in
  ∃ w' gid gat,
    performCmrAction cmrId userId "delivery_end" w = (Returned tt, w')
    ∧ cmr_documents (db w') !! cmrId
      = Some (CmrDocument.with_status final_status doc)
    ∧ (∀ other, other ≠ cmrId →
                cmr_documents (db w') !! other = cmr_documents (db w) !! other)
    ∧ cmr_events (db w')
      = cmr_events (db w)
        ++ [CmrEvent.mk gid cmrId userId "delivery_end"
              [("status", JString final_status);
               ("has_reserves", JBool has_reserves)] gat]
    ∧ cmr_signatures (db w') = cmr_signatures (db w)
    ∧ cmr_reserves (db w') = cmr_reserves (db w)
    ∧ cmr_photos (db w') = cmr_photos (db w)
    ∧ objects w' = objects w.
Proof.
  intros Hdoc H has final.
  destruct (performs_next_at 3 w 0 H ltac:(lia)) as (g0 & t0 & E0).
  destruct (performs_next_at 3 w 1 H ltac:(lia)) as (g1 & t1 & E1).
  destruct (performs_next_at 3 w 2 H ltac:(lia)) as (g2 & t2 & E2).
  rewrite Nat.add_0_r in E0.
  change (performCmrAction cmrId userId "delivery_end" w)
    with (completeDelivery cmrId userId w).
  run_async. rewrite E0. world_simpl. rewrite E1. world_simpl.
  rewrite <- Nat.add_assoc. cbn [Nat.add]. rewrite E2. world_simpl.
  pose proof (reserve_probe cmrId (cmr_reserves (db w))) as Hp.
  fold (reserves_exist cmrId (db w)) in Hp. fold has in Hp.
  eexists _, g2, t2. split; [reflexivity|]. world_simpl.
  rewrite Hp. fold final.
  rewrite lookup_alter_eq, Hdoc.
  repeat split; try reflexivity.
  intros other Hne. by rewrite lookup_alter_ne.
Qed.

Lemma delivery_end_final_status_witness :
  cmr_documents (db Examples.at_consignee) !! "d1-0000-0000"
  = Some (Examples.document "ready_to_deliver")
  ∧ ∃ w' gid gat,
      performCmrAction "d1-0000-0000" "u1" "delivery_end" Examples.at_consignee
      = (Returned tt, w')
      ∧ status_of "d1-0000-0000" w' = Some "completed_with_reserves"
      ∧ cmr_events (db w')
        = [CmrEvent.mk gid "d1-0000-0000" "u1" "delivery_end"
             [("status", JString "completed_with_reserves");
              ("has_reserves", JBool true)] gat].
Proof.
  split; [reflexivity|].
  destruct (delivery_end_final_status "d1-0000-0000" "u1" Examples.at_consignee
              (Examples.document "ready_to_deliver") eq_refl
              (always_performs_next 3 _ _ _))
    as (w' & gid & gat & Hrun & Hdoc & _ & Hev & _).
  exists w', gid, gat. split; [exact Hrun|]. split; [|exact Hev].
  unfold status_of. rewrite Hdoc. reflexivity.
Defined.

(** Whatever the service answers, an action leaves the status where it
    was or writes its own target status. *)
Lemma step_rank cmrId userId a w :
  rank_of cmrId (after cmrId userId a w) = rank_of cmrId w
  ∨ rank_of cmrId (after cmrId userId a w) = target_rank a.
Proof.
  unfold after. rewrite dispatch.
  destruct a; run_async;
    repeat match goal with
      | |- context [match replies ?w ?n with _ => _ end] =>
          destruct (replies w n)
      | |- context [match take 1 ?l with _ => _ end] => destruct (take 1 l)
      end;
    unfold rank_of, status_of; world_simpl;
    try (left; reflexivity);
    rewrite lookup_alter_eq;
    destruct (cmr_documents (db w) !! cmrId); cbn; auto.
Qed.

(** C3, as the specification states it, fails: [loading_start] checks no
    status, so on a document that is [in_transit] (rank 3) it writes
    [loading] (rank 2). *)
Lemma loading_start_moves_status_backward :
  rank_of "d1-0000-0000" Examples.on_the_road = 3%nat
  ∧ observed "d1-0000-0000" "u1" [loading_start] Examples.on_the_road = [2%nat]
  ∧ ¬ non_decreasing
        (rank_of "d1-0000-0000" Examples.on_the_road
         :: observed "d1-0000-0000" "u1" [loading_start] Examples.on_the_road).
Proof.
  split; [reflexivity|]. split; [reflexivity|].
  intros [H _]. vm_compute in H. lia.
Qed.

(** C3, amended.  Along every sequence of lifecycle actions in which each
    action is invoked while the document's status is at or below the
    status that action writes, the ranks observed are non-decreasing,
    whatever the service answers. *)
Theorem forward_invocations_monotone (cmrId userId : string)
    (acts : list CmrActionType) (w : World) :
  invoked_forward cmrId userId acts w →
  non_decreasing (rank_of cmrId w :: observed cmrId userId acts w).
Proof.
  revert w. induction acts as [|a rest IH]; intros w H; [exact I|].
  destruct H as [Hle Hrest]. cbn [observed non_decreasing]. split.
  - destruct (step_rank cmrId userId a w) as [E|E]; rewrite E; lia.
  - apply IH, Hrest.
Qed.

Lemma forward_invocations_monotone_witness :
  invoked_forward "d1-0000-0000" "u1"
    [loading_start; loading_end; delivery_start; delivery_end]
    Examples.fresh_signed
  ∧ non_decreasing
      (rank_of "d1-0000-0000" Examples.fresh_signed
       :: observed "d1-0000-0000" "u1"
            [loading_start; loading_end; delivery_start; delivery_end]
            Examples.fresh_signed).
Proof.
  assert (invoked_forward "d1-0000-0000" "u1"
            [loading_start; loading_end; delivery_start; delivery_end]
            Examples.fresh_signed) as H.
  { vm_compute. repeat split; lia. }
  split; [exact H|].
  exact (forward_invocations_monotone _ _ _ _ H).
Defined.

(** C4, as the specification states it, fails: [delivery_end] updates the
    document before it inserts the event. *)
Lemma delivery_end_updates_before_inserting :
  writes (calls (after "d1-0000-0000" "u1" delivery_end Examples.at_consignee))
  = [Update "cmr_documents" [("id", "d1-0000-0000")]; Insert "cmr_events"]
  ∧ writes (calls (after "d1-0000-0000" "u1" delivery_end Examples.at_consignee))
    ≠ event_then_status "d1-0000-0000".
Proof. split; [reflexivity|]. vm_compute. discriminate. Qed.

(** Whatever the service answers, the requests an action sends are an
    initial segment of [requests_of]. *)
Lemma requests_sent_in_order cmrId userId a w :
  ∃ sent, calls (after cmrId userId a w) = calls w ++ sent
          ∧ sent `prefix_of` requests_of cmrId a.
Proof.
  unfold after. rewrite dispatch.
  destruct a; run_async;
    repeat match goal with
      | |- context [match replies ?w ?n with _ => _ end] =>
          destruct (replies w n)
      | |- context [match take 1 ?l with _ => _ end] => destruct (take 1 l)
      end;
    world_simpl; rewrite <- ?app_assoc;
    (eexists; split; [reflexivity|]); by eexists.
Qed.

(** When the service performs them, all the requests are sent. *)
Lemma requests_when_performed cmrId userId a w :
  performs_next 3 w →
  (a = loading_end → shipper_signatures cmrId (db w) ≠ []) →
  calls (after cmrId userId a w) = calls w ++ requests_of cmrId a.
Proof.
  intros H Hsig.
  destruct (performs_next_at 3 w 0 H ltac:(lia)) as (g0 & t0 & E0).
  destruct (performs_next_at 3 w 1 H ltac:(lia)) as (g1 & t1 & E1).
  destruct (performs_next_at 3 w 2 H ltac:(lia)) as (g2 & t2 & E2).
  rewrite Nat.add_0_r in E0.
  unfold after. rewrite dispatch.
  destruct a; run_async; world_simpl.
  - rewrite E0. world_simpl. rewrite E1. world_simpl. by rewrite <- app_assoc.
  - rewrite E0. world_simpl.
    destruct (signature_probe cmrId _ (Hsig eq_refl)) as (x & xs & Hx).
    unfold shipper_signatures in Hx. rewrite Hx.
    world_simpl. rewrite E1. world_simpl.
    rewrite <- Nat.add_assoc. cbn [Nat.add]. rewrite E2.
    world_simpl. by rewrite <- !app_assoc.
  - rewrite E0. world_simpl. rewrite E1. world_simpl. by rewrite <- app_assoc.
  - rewrite E0. world_simpl. rewrite E1. world_simpl.
    rewrite <- Nat.add_assoc. cbn [Nat.add]. rewrite E2.
    world_simpl. by rewrite <- !app_assoc.
Qed.

(** C4, amended.  After the precondition read, [loading_start],
    [loading_end] and [delivery_start] insert the event and then update
    the document, and [delivery_end] updates the document and then
    inserts the event: whatever the service answers, the requests an
    action sends are an initial segment of [requests_of], and when the
    service performs them (and, for [loading_end], the shipper signature
    is on file) they are all of it. *)
Theorem write_order_by_action (cmrId userId : string) (a : CmrActionType)
    (w : World) :
  writes (requests_of cmrId a)
  = match a with
    | delivery_end =>
        [Update "cmr_documents" [("id", cmrId)]; Insert "cmr_events"]
    | _ => event_then_status cmrId
    end
  ∧ ∃ sent,
      calls (after cmrId userId a w) = calls w ++ sent
      ∧ sent `prefix_of` requests_of cmrId a
      ∧ (performs_next 3 w →
         (a = loading_end → shipper_signatures cmrId (db w) ≠ []) →
         sent = requests_of cmrId a).
Proof.
  split; [by destruct a|].
  destruct (requests_sent_in_order cmrId userId a w) as (sent & Hsent & Hpre).
  exists sent. split; [exact Hsent|]. split; [exact Hpre|].
  intros H Hsig.
  pose proof (requests_when_performed cmrId userId a w H Hsig) as Hall.
  rewrite Hsent in Hall. by apply app_inv_head in Hall.
Qed.

Lemma write_order_by_action_witness :
  shipper_signatures "d1-0000-0000" (db Examples.fresh_signed) ≠ []
  ∧ calls (after "d1-0000-0000" "u1" loading_end Examples.fresh_signed)
    = [Select "cmr_signatures"
         [("cmr_id", "d1-0000-0000"); ("party_type", "shipper")];
       Insert "cmr_events"; Update "cmr_documents" [("id", "d1-0000-0000")]].
Proof.
  assert (shipper_signatures "d1-0000-0000" (db Examples.fresh_signed) ≠ [])
    as Hsig by (vm_compute; discriminate).
  split; [exact Hsig|].
  destruct (write_order_by_action "d1-0000-0000" "u1" loading_end
              Examples.fresh_signed)
    as (_ & sent & Hcalls & _ & Hall).
  rewrite Hcalls, (Hall (always_performs_next 3 _ _ _) (fun _ => Hsig)).
  reflexivity.
Defined.

End LifecycleFacts.

(* --------------------------------------------------------------------- *)
(** ** Photo upload *)
(* --------------------------------------------------------------------- *)

Section UploadFacts.
Import Supabase PhotoUpload.



End UploadFacts.

(* --------------------------------------------------------------------- *)
(** ** The export pipeline *)
(* --------------------------------------------------------------------- *)

Section ExportFacts.
Import PdfGenerator.
Local Open Scope Q_scope.
Context (rt : Runtime).


(** The four text helpers make the check before they write. *)
Lemma helpers_check_first text fontSize isBold xOffset title boxNumber left right st :
  (addText rt text fontSize isBold xOffset st).2
  = (let st1 := (checkPageBreak rt lineHeight st).2 in
     {| pdf := JsPdf.text text (leftMargin + xOffset) (yPos st1) None
                 (JsPdf.setFont "helvetica" (if isBold then "bold" else "normal")
                    (JsPdf.setFontSize fontSize (pdf st1)));
        yPos := yPos st1 + lineHeight |})
  ∧ (addSubSection rt title fontSize st).2
    = (let st1 := (checkPageBreak rt lineHeight st).2 in
       {| pdf := JsPdf.text title leftMargin (yPos st1) None
                   (JsPdf.setFont "helvetica" "bold"
                      (JsPdf.setFontSize fontSize (pdf st1)));
          yPos := yPos st1 + lineHeight |})
  ∧ (addTwoColumns rt left right fontSize st).2
    = (let st1 := (checkPageBreak rt lineHeight st).2 in
       {| pdf := JsPdf.text right (pageWidth rt / 2) (yPos st1) None
                   (JsPdf.text left leftMargin (yPos st1) None
                      (JsPdf.setFont "helvetica" "normal"
                         (JsPdf.setFontSize fontSize (pdf st1))));
          yPos := yPos st1 + lineHeight |})
  ∧ ∃ st2, (addSection rt title boxNumber st).2 = st2
           ∧ yPos st2
             = yPos (checkPageBreak rt (lineHeight + 4) st).2 + 2 + lineHeight + 2.
Proof.
  unfold addText, addSubSection, addTwoColumns, addSection,
    mbind, gen_bind, doc, withY, advance.
  repeat split; try (by destruct (checkPageBreak rt _ st) as [b st1]).
  eexists. split; [reflexivity|].
  by destruct (checkPageBreak rt _ st) as [b st1].
Qed.

(** The pages after the footer of page [i] was written. *)
Lemma footerOf_pages clock n i st :
  JsPdf.pages (pdf (footerOf rt clock n i st).2)
  = alter (λ p, p ++ [legalNotice rt;
                      stamp rt (formatDate rt LongDateTime (clock i)) i n])
      (pred i) (JsPdf.pages (pdf st)).
Proof.
  cbv beta iota zeta delta
    [footerOf doc withY mbind gen_bind snd pdf
     JsPdf.text JsPdf.setFontSize JsPdf.setFont JsPdf.setTextColor
     JsPdf.setPage JsPdf.put JsPdf.pages JsPdf.currentPage JsPdf.font
     JsPdf.textColor JsPdf.family JsPdf.style JsPdf.size].
  rewrite list_alter_alter_eq. apply list_alter_ext; [|done].
  intros p _. cbn. by rewrite <- app_assoc.
Qed.

(** The footer loop over pages [a+1 .. a+m] stamps those pages only. *)
Lemma footer_loop clock n : ∀ m a st k,
  JsPdf.pages (pdf (for_each (seq (S a) m) (footerOf rt clock n) st).2) !! k
  = if decide (a ≤ k < a + m)%nat
    then (λ p, p ++ [legalNotice rt;
                     stamp rt (formatDate rt LongDateTime (clock (S k))) (S k) n])
         <$> JsPdf.pages (pdf st) !! k
    else JsPdf.pages (pdf st) !! k.
Proof.
  induction m as [|m IH]; intros a st k.
  - cbn. by rewrite decide_False by lia.
  - cbn [seq for_each]. unfold mbind, gen_bind.
    destruct (footerOf rt clock n (S a) st) as [[] st1] eqn:E.
    rewrite IH.
    assert (JsPdf.pages (pdf st1)
            = alter (λ p, p ++ [legalNotice rt;
                                stamp rt (formatDate rt LongDateTime (clock (S a)))
                                  (S a) n])
                a (JsPdf.pages (pdf st))) as ->.
    { pose proof (footerOf_pages clock n (S a) st) as Hp.
      rewrite E in Hp. exact Hp. }
    destruct (decide (k = a)) as [->|Hne].
    + rewrite decide_False by lia. rewrite decide_True by lia.
      by rewrite list_lookup_alter_eq.
    + rewrite list_lookup_alter_ne by done.
      destruct (decide (S a ≤ k < S a + m)%nat),
        (decide (a ≤ k < a + S m)%nat); try lia; done.
Qed.

Lemma footer_pages clock st :
  JsPdf.pages (pdf (footer rt clock st).2)
  = imap (λ k p, p ++ [legalNotice rt;
                       stamp rt (formatDate rt LongDateTime (clock (S k))) (S k)
                         (length (JsPdf.pages (pdf st)))])
      (JsPdf.pages (pdf st)).
Proof.
  apply list_eq. intros k. unfold footer, JsPdf.numberOfPages.
  rewrite footer_loop, list_lookup_imap.
  case_decide as Hk; [done|].
  by rewrite lookup_ge_None_2 by lia.
Qed.

(** The pages of the export: those of the main pass, each followed by the
    legal notice and the stamp of its own reading of the clock. *)
Lemma generate_pages clock o :
  JsPdf.pages (generateCmrPdf rt clock o)
  = let st := (body rt o {| pdf := JsPdf.create; yPos := 15 |}).2 in
    imap (λ k p, p ++ [legalNotice rt;
                       stamp rt (formatDate rt LongDateTime (clock (S k))) (S k)
                         (length (JsPdf.pages (pdf st)))])
      (JsPdf.pages (pdf st)).
Proof.
  unfold generateCmrPdf. cbn zeta. rewrite <- footer_pages.
  unfold mbind, gen_bind. by destruct (body rt o _) as [[] st].
Qed.

(** C6.  Two exports of the same aggregate, made at different times on
    the same runtime, have the same number of pages, and page by page the
    same content: they differ at most in the timestamp inside the last
    line of each page, "Generated on ... - Page i of n". *)
Theorem export_determinism (clock1 clock2 : nat → string)
    (o : GeneratePdfOptions) :
  JsPdf.numberOfPages (generateCmrPdf rt clock1 o)
  = JsPdf.numberOfPages (generateCmrPdf rt clock2 o)
  ∧ Forall2 (same_but_timestamp rt (JsPdf.numberOfPages (generateCmrPdf rt clock1 o)))
      (JsPdf.pages (generateCmrPdf rt clock1 o))
      (JsPdf.pages (generateCmrPdf rt clock2 o)).
Proof.
  unfold JsPdf.numberOfPages. rewrite !generate_pages. cbn zeta.
  set (ps := JsPdf.pages (pdf (body rt o _).2)).
  rewrite !length_imap. split; [done|].
  apply Forall2_same_length_lookup_2; [by rewrite !length_imap|].
  intros k p1 p2. rewrite !list_lookup_imap.
  destruct (ps !! k) as [p|]; [|done]. cbn. intros [= <-] [= <-].
  exists (p ++ [legalNotice rt]), (S k),
    (formatDate rt LongDateTime (clock1 (S k))),
    (formatDate rt LongDateTime (clock2 (S k))).
  by rewrite <- !app_assoc.
Qed.

(** A fetch that fails leaves the page-break check and the handler. *)
Lemma embed_fetch_failure url requiredSpace format x w h onError :
  fetchDataUrl rt (Js.show url) = None →
  embedImage rt url requiredSpace format x w h onError
  = (checkPageBreak rt requiredSpace ≫= λ _, onError).
Proof. intros H. unfold embedImage. by rewrite H. Qed.

End ExportFacts.

Section ExportOnExamples.
Import PdfGenerator Examples.

(** C5.  On an aggregate whose loading reserve has a photo that cannot be
    fetched the export completes, but no placeholder is written for that
    photo, whereas an unreachable general photo and an unreachable
    signature image each leave their placeholder line. *)
Theorem reserve_photo_failure_writes_no_placeholder :
  from_line "23-24. RESERVES & OBSERVATIONS"
    (texts (generateCmrPdf runtime clock_a reserve_photo_unreachable))
  = ["23-24. RESERVES & OBSERVATIONS";
     "23. Reserves at Loading (Réserves au chargement)";
     "• Damaged packaging";
     "Torn wrap";
     "This digital CMR document is a legally valid transport contract under the CMR Convention";
     "Generated on 2025-01-17T12:00:00Z - Page 1 of 2";
     "SIGNATURES";
     "This digital CMR document is a legally valid transport contract under the CMR Convention";
     "Generated on 2025-01-17T12:00:00Z - Page 2 of 2"]
  ∧ placeholders (generateCmrPdf runtime clock_a reserve_photo_unreachable) = []
  ∧ placeholders (generateCmrPdf runtime clock_a photo_unreachable)
    = ["[Photo not available]"]
  ∧ placeholders (generateCmrPdf runtime clock_a signature_unreachable)
    = ["[Signature image not available]"].
Proof. repeat split; by vm_compute. Qed.

Lemma clock_shows_in_footer_only :
  texts (generateCmrPdf runtime clock_a signature_unreachable)
  ≠ texts (generateCmrPdf runtime clock_b signature_unreachable)
  ∧ List.filter (fun s => negb (String.prefix "Generated on " s))
      (texts (generateCmrPdf runtime clock_a signature_unreachable))
    = List.filter (fun s => negb (String.prefix "Generated on " s))
        (texts (generateCmrPdf runtime clock_b signature_unreachable)).
Proof. split; [vm_compute; discriminate|]. by vm_compute. Qed.

End ExportOnExamples.

(* ===================================================================== *)
(** * Further properties of the code *)
(* ===================================================================== *)

(* --------------------------------------------------------------------- *)
(** ** Lifecycle actions: what they write, and when they fail *)
(* --------------------------------------------------------------------- *)

Section TransitionFacts.
Import Supabase CmrActions Lifecycle Transitions.

Ltac split_replies :=
  repeat (world_simpl; match goal with
    | |- context [match replies ?w ?n with _ => _ end] =>
        let E := fresh "E" in destruct (replies w n) eqn:E
    | |- context [match take 1 ?l with _ => _ end] =>
        let E := fresh "T" in destruct (take 1 l) eqn:E
    end).

(** X1.  An action that returns has inserted exactly one event, typed with
    the action's tag and carrying the action's metadata, and has written
    the action's status to the document's row; its gate was open, and the
    signatures, reserves, photos and stored objects are as before. *)
Theorem successful_action_pairs_event_and_status cmrId userId a w w' :
  performCmrAction cmrId userId (tag a) w = (Returned tt, w') →
  let has := reserves_exist cmrId (db w) in
  ∃ gid gat,
    cmr_events (db w')
    = cmr_events (db w)
      ++ [CmrEvent.mk gid cmrId userId (tag a) (event_metadata a has) gat]
    ∧ cmr_documents (db w')
      = alter (CmrDocument.with_status (written_status a has)) cmrId
          (cmr_documents (db w))
    ∧ gate_open cmrId a (db w)
    ∧ cmr_signatures (db w') = cmr_signatures (db w)
    ∧ cmr_reserves (db w') = cmr_reserves (db w)
    ∧ cmr_photos (db w') = cmr_photos (db w)
    ∧ objects w' = objects w.
Proof.
  rewrite dispatch. intros H has. revert H.
  pose proof (reserve_probe cmrId (cmr_reserves (db w))) as Hp.
  fold (reserves_exist cmrId (db w)) in Hp. fold has in Hp.
  destruct a; run_async; split_replies; intros [= <-]; world_simpl;
    try (cbn in Hp; rewrite <- Hp);
    eexists _, _; repeat split; try reflexivity; try done.
  intros _. unfold shipper_signatures. intros Hn. by rewrite Hn in T.
Qed.

Lemma successful_action_pairs_event_and_status_witness :
  ∃ gid gat,
    cmr_events (db (after "d1-0000-0000" "u1" delivery_start Examples.on_the_road))
    = [CmrEvent.mk gid "d1-0000-0000" "u1" "delivery_start" [] gat]
    ∧ status_of "d1-0000-0000"
        (after "d1-0000-0000" "u1" delivery_start Examples.on_the_road)
      = Some "ready_to_deliver".
Proof.
  destruct (successful_action_pairs_event_and_status "d1-0000-0000" "u1"
              delivery_start Examples.on_the_road
              (after "d1-0000-0000" "u1" delivery_start Examples.on_the_road)
              eq_refl)
    as (gid & gat & Hev & Hdoc & _).
  exists gid, gat. split; [exact Hev|].
  unfold status_of. rewrite Hdoc. reflexivity.
Defined.

(** X2.  Whatever an action does, returning or throwing, the signatures,
    the reserves, the photos, the stored objects and the service's
    answers are untouched; the events are as before or have the action's
    one event appended; the documents are as before or have the action's
    status written to the row of the document. *)
Theorem actions_touch_only_status_and_events cmrId userId a w :
  let w' := after cmrId userId a w in
  cmr_signatures (db w') = cmr_signatures (db w)
  ∧ cmr_reserves (db w') = cmr_reserves (db w)
  ∧ cmr_photos (db w') = cmr_photos (db w)
  ∧ objects w' = objects w
  ∧ replies w' = replies w
  ∧ (cmr_events (db w') = cmr_events (db w)
     ∨ ∃ gid gat,
         cmr_events (db w')
         = cmr_events (db w)
           ++ [event_row gid gat cmrId userId a (reserves_exist cmrId (db w))])
  ∧ (cmr_documents (db w') = cmr_documents (db w)
     ∨ cmr_documents (db w') = status_written cmrId a (db w)).
Proof.
  unfold after, status_written, event_row. rewrite dispatch.
  pose proof (reserve_probe cmrId (cmr_reserves (db w))) as Hp.
  fold (reserves_exist cmrId (db w)) in Hp.
  destruct a; run_async; split_replies; world_simpl;
    try (cbn in Hp; rewrite <- Hp);
    repeat split; try reflexivity; try (by left);
    try (right; try (by eexists _, _); reflexivity).
Qed.



Lemma performs_none w : performs_next 0 w.
Proof. intros i Hi. lia. Qed.

Lemma gate_open_other cmrId a d : a ≠ loading_end → gate_open cmrId a d.
Proof. intros Hne Ha. done. Qed.

(** X4.  When the service refuses the first write of an action (its
    reads were answered and its gate is open), the action throws the
    service's error as it is and no table has changed. *)
Theorem refused_first_write_changes_nothing cmrId userId a w e :
  performs_next (reads_before_writing a) w →
  gate_open cmrId a (db w) →
  replies w (length (calls w) + reads_before_writing a) = Refused e →
  (performCmrAction cmrId userId (tag a) w).1 = Threw (ThrowService e)
  ∧ db (after cmrId userId a w) = db w.
Proof.
  intros H Hgate Hr. unfold after. rewrite dispatch.
  destruct a; cbn [reads_before_writing] in *.
  - rewrite Nat.add_0_r in Hr. run_async. rewrite Hr. world_simpl. by destruct (db w).
  - destruct (performs_next_at 1 w 0 H ltac:(lia)) as (g0 & t0 & E0).
    rewrite Nat.add_0_r in E0.
    destruct (signature_probe cmrId _ (Hgate eq_refl)) as (x & xs & Hx).
    unfold shipper_signatures in Hx.
    run_async. rewrite E0. world_simpl. rewrite Hx. world_simpl. rewrite Hr.
    world_simpl. by destruct (db w).
  - rewrite Nat.add_0_r in Hr. run_async. rewrite Hr. world_simpl. by destruct (db w).
  - destruct (performs_next_at 1 w 0 H ltac:(lia)) as (g0 & t0 & E0).
    rewrite Nat.add_0_r in E0.
    run_async. rewrite E0. world_simpl. rewrite Hr. world_simpl. by destruct (db w).
Qed.

Lemma refused_first_write_changes_nothing_witness :
  (performCmrAction "d1-0000-0000" "u1" "loading_start" (Scenarios.refused_at 0)).1
  = Threw (ThrowService {| message := "connection lost" |})
  ∧ db (after "d1-0000-0000" "u1" loading_start (Scenarios.refused_at 0))
    = db (Scenarios.refused_at 0).
Proof.
  apply (refused_first_write_changes_nothing "d1-0000-0000" "u1" loading_start
           (Scenarios.refused_at 0) {| message := "connection lost" |}).
  - apply performs_none.
  - apply gate_open_other. discriminate.
  - reflexivity.
Defined.

(** X5.  When the service refuses the second write of an action, the
    action throws the service's error and the first write stays: for
    [delivery_end] the status is already final and no event records it;
    for the three other actions the event is recorded and the status is
    the old one. *)
Theorem refused_second_write_leaves_first cmrId userId a w e :
  performs_next (S (reads_before_writing a)) w →
  gate_open cmrId a (db w) →
  replies w (length (calls w) + S (reads_before_writing a)) = Refused e →
  let w' := after cmrId userId a w in
  (performCmrAction cmrId userId (tag a) w).1 = Threw (ThrowService e)
  ∧ match a with
    | delivery_end =>
        cmr_events (db w') = cmr_events (db w)
        ∧ cmr_documents (db w') = status_written cmrId a (db w)
    | _ =>
        (∃ gid gat,
            cmr_events (db w')
            = cmr_events (db w) ++ [event_row gid gat cmrId userId a false])
        ∧ cmr_documents (db w') = cmr_documents (db w)
    end.
Proof.
  intros H Hgate Hr. unfold after, status_written, event_row. rewrite dispatch.
  pose proof (reserve_probe cmrId (cmr_reserves (db w))) as Hp.
  fold (reserves_exist cmrId (db w)) in Hp.
  destruct a; cbn [reads_before_writing] in *.
  - destruct (performs_next_at 1 w 0 H ltac:(lia)) as (g0 & t0 & E0).
    rewrite Nat.add_0_r in E0.
    run_async. rewrite E0. world_simpl. rewrite Hr. world_simpl.
    split; [done|]. split; [by eexists _, _|done].
  - destruct (performs_next_at 2 w 0 H ltac:(lia)) as (g0 & t0 & E0).
    destruct (performs_next_at 2 w 1 H ltac:(lia)) as (g1 & t1 & E1).
    rewrite Nat.add_0_r in E0.
    destruct (signature_probe cmrId _ (Hgate eq_refl)) as (x & xs & Hx).
    unfold shipper_signatures in Hx.
    run_async. rewrite E0. world_simpl. rewrite Hx. world_simpl. rewrite E1.
    world_simpl. rewrite <- Nat.add_assoc. cbn [Nat.add]. rewrite Hr. world_simpl.
    split; [done|]. split; [by eexists _, _|done].
  - destruct (performs_next_at 1 w 0 H ltac:(lia)) as (g0 & t0 & E0).
    rewrite Nat.add_0_r in E0.
    run_async. rewrite E0. world_simpl. rewrite Hr. world_simpl.
    split; [done|]. split; [by eexists _, _|done].
  - destruct (performs_next_at 2 w 0 H ltac:(lia)) as (g0 & t0 & E0).
    destruct (performs_next_at 2 w 1 H ltac:(lia)) as (g1 & t1 & E1).
    rewrite Nat.add_0_r in E0.
    run_async. rewrite E0. world_simpl. rewrite E1.
    world_simpl. rewrite <- Nat.add_assoc. cbn [Nat.add]. rewrite Hr. world_simpl.
    rewrite Hp. done.
Qed.

Lemma refused_second_write_leaves_first_witness :
  (performCmrAction "d1-0000-0000" "u1" "loading_start" (Scenarios.refused_at 1)).1
  = Threw (ThrowService {| message := "connection lost" |})
  ∧ (∃ gid gat,
        cmr_events (db (after "d1-0000-0000" "u1" loading_start
                          (Scenarios.refused_at 1)))
        = [event_row gid gat "d1-0000-0000" "u1" loading_start false])
  ∧ status_of "d1-0000-0000"
      (after "d1-0000-0000" "u1" loading_start (Scenarios.refused_at 1))
    = Some "ready_to_load".
Proof.
  destruct (refused_second_write_leaves_first "d1-0000-0000" "u1" loading_start
              (Scenarios.refused_at 1) {| message := "connection lost" |})
    as (Hthrow & Hev & Hdoc).
  - intros i Hi. destruct i as [|i]; [by eexists _, _|].
    cbn [reads_before_writing] in Hi. lia.
  - apply gate_open_other. discriminate.
  - reflexivity.
  - split; [exact Hthrow|]. split; [exact Hev|].
    unfold status_of. rewrite Hdoc. reflexivity.
Defined.

(** X6.  When the service performs the requests of an action, the action
    returns exactly when its gate is open: always for [loading_start],
    [delivery_start] and [delivery_end], and for [loading_end] exactly
    when a shipper signature of the document is on file. *)
Theorem action_returns_iff_gate_open cmrId userId a w :
  performs_next 3 w →
  (performCmrAction cmrId userId (tag a) w).1 = Returned tt
  ↔ gate_open cmrId a (db w).
Proof.
  intros H.
  destruct (performs_next_at 3 w 0 H ltac:(lia)) as (g0 & t0 & E0).
  destruct (performs_next_at 3 w 1 H ltac:(lia)) as (g1 & t1 & E1).
  destruct (performs_next_at 3 w 2 H ltac:(lia)) as (g2 & t2 & E2).
  rewrite Nat.add_0_r in E0. rewrite dispatch. unfold gate_open.
  destruct a; run_async; world_simpl; rewrite E0; world_simpl.
  - rewrite E1. world_simpl. done.
  - unfold shipper_signatures.
    destruct (filter _ (cmr_signatures (db w))) as [|s l] eqn:Hf;
      cbn [take fmap list_fmap]; world_simpl.
    + split; [done|]. intros Hg. by destruct (Hg eq_refl).
    + rewrite E1. world_simpl. rewrite <- Nat.add_assoc. cbn [Nat.add].
      rewrite E2. world_simpl. done.
  - rewrite E1. world_simpl. done.
  - rewrite E1. world_simpl. rewrite <- Nat.add_assoc. cbn [Nat.add].
    rewrite E2. world_simpl. done.
Qed.

Lemma action_returns_iff_gate_open_witness :
  (performCmrAction "d1-0000-0000" "u1" "loading_end" Examples.fresh_signed).1
  = Returned tt
  ∧ (performCmrAction "d1-0000-0000" "u1" "loading_end" Examples.loading_unsigned).1
    ≠ Returned tt.
Proof.
  split.
  - apply (action_returns_iff_gate_open "d1-0000-0000" "u1" loading_end
             Examples.fresh_signed (always_performs_next 3 _ _ _)).
    intros _. vm_compute. discriminate.
  - intros Hret.
    apply (action_returns_iff_gate_open "d1-0000-0000" "u1" loading_end
             Examples.loading_unsigned (always_performs_next 3 _ _ _)) in Hret.
    by apply Hret.
Defined.

(** What an action does when the service performs its requests. *)
Lemma performed_action cmrId userId a w :
  performs_next 3 w →
  gate_open cmrId a (db w) →
  let w' := after cmrId userId a w in
  (∃ gid gat,
      cmr_events (db w')
      = cmr_events (db w)
        ++ [event_row gid gat cmrId userId a (reserves_exist cmrId (db w))])
  ∧ cmr_documents (db w') = status_written cmrId a (db w)
  ∧ cmr_signatures (db w') = cmr_signatures (db w)
  ∧ cmr_reserves (db w') = cmr_reserves (db w)
  ∧ replies w' = replies w
  ∧ calls w' = calls w ++ requests_of cmrId a
  ∧ (performCmrAction cmrId userId (tag a) w).1 = Returned tt
  ∧ cmr_photos (db w') = cmr_photos (db w)
  ∧ objects w' = objects w
  ∧ supabaseUrl w' = supabaseUrl w.
Proof.
  intros H Hgate w'.
  pose proof (requests_when_performed cmrId userId a w H Hgate) as Hcalls.
  fold w' in Hcalls. subst w'.
  destruct (performs_next_at 3 w 0 H ltac:(lia)) as (g0 & t0 & E0).
  destruct (performs_next_at 3 w 1 H ltac:(lia)) as (g1 & t1 & E1).
  destruct (performs_next_at 3 w 2 H ltac:(lia)) as (g2 & t2 & E2).
  rewrite Nat.add_0_r in E0.
  pose proof (reserve_probe cmrId (cmr_reserves (db w))) as Hp.
  fold (reserves_exist cmrId (db w)) in Hp.
  revert Hcalls. unfold after, status_written, event_row. rewrite dispatch.
  destruct a; run_async; world_simpl; rewrite E0; world_simpl.
  - rewrite E1. world_simpl. intros Hc. repeat split; try done. by eexists _, _.
  - destruct (signature_probe cmrId _ (Hgate eq_refl)) as (x & xs & Hx).
    unfold shipper_signatures in Hx. rewrite Hx. world_simpl.
    rewrite E1. world_simpl. rewrite <- Nat.add_assoc. cbn [Nat.add].
    rewrite E2. world_simpl. intros Hc. repeat split; try done. by eexists _, _.
  - rewrite E1. world_simpl. intros Hc. repeat split; try done. by eexists _, _.
  - rewrite E1. world_simpl. rewrite <- Nat.add_assoc. cbn [Nat.add].
    rewrite E2. world_simpl. rewrite Hp. intros Hc.
    repeat split; try done. by eexists _, _.
Qed.

Lemma performs_next_after cmrId userId a w k :
  performs_next (length (requests_of cmrId a) + k) w →
  replies (after cmrId userId a w) = replies w →
  calls (after cmrId userId a w) = calls w ++ requests_of cmrId a →
  performs_next k (after cmrId userId a w).
Proof.
  intros H Hr Hc i Hi. rewrite Hr, Hc, length_app, <- Nat.add_assoc.
  apply H. lia.
Qed.

Lemma performs_next_le k k' w : (k' ≤ k)%nat → performs_next k w → performs_next k' w.
Proof. intros Hle H i Hi. apply H. lia. Qed.

(** X7.  The four actions in the order of the workflow, on a document
    whose shipper signature is on file and a service that performs the
    ten requests, append four events typed [loading_start], [loading_end],
    [delivery_start], [delivery_end] and leave the document, whatever its
    status was, in [completed_with_reserves] when it has a reserve and
    in [completed] otherwise, the last event saying which. *)
Theorem full_cycle_completes cmrId userId w doc :
  cmr_documents (db w) !! cmrId = Some doc →
  shipper_signatures cmrId (db w) ≠ [] →
  performs_next 10 w →
  let w' := run cmrId userId full_cycle w in
  let final := written_status delivery_end (reserves_exist cmrId (db w)) in
  (∃ e1 e2 e3 e4,
      cmr_events (db w') = cmr_events (db w) ++ [e1; e2; e3; e4]
      ∧ CmrEvent.type <$> [e1; e2; e3; e4] = tag <$> full_cycle
      ∧ CmrEvent.metadata e4
        = [("status", JString final);
           ("has_reserves", JBool (reserves_exist cmrId (db w)))])
  ∧ cmr_documents (db w') !! cmrId = Some (CmrDocument.with_status final doc).
Proof.
  intros Hdoc Hsig H w' final. subst w'. cbn [run full_cycle].
  set (w1 := after cmrId userId loading_start w).
  destruct (performed_action cmrId userId loading_start w
              (performs_next_le 10 3 _ ltac:(lia) H)
              (gate_open_other cmrId loading_start (db w) ltac:(done)))
    as ((g1 & t1 & Hev1) & Hd1 & Hs1 & Hr1 & Hrep1 & Hc1 & _).
  fold w1 in Hev1, Hd1, Hs1, Hr1, Hrep1, Hc1.
  pose proof (performs_next_after cmrId userId loading_start w 8 H Hrep1 Hc1) as H1.
  fold w1 in H1.
  set (w2 := after cmrId userId loading_end w1).
  destruct (performed_action cmrId userId loading_end w1
              (performs_next_le 8 3 _ ltac:(lia) H1))
    as ((g2 & t2 & Hev2) & Hd2 & Hs2 & Hr2 & Hrep2 & Hc2 & _).
  { intros _. unfold shipper_signatures. rewrite Hs1. exact Hsig. }
  fold w2 in Hev2, Hd2, Hs2, Hr2, Hrep2, Hc2.
  pose proof (performs_next_after cmrId userId loading_end w1 5 H1 Hrep2 Hc2) as H2.
  fold w2 in H2.
  set (w3 := after cmrId userId delivery_start w2).
  destruct (performed_action cmrId userId delivery_start w2
              (performs_next_le 5 3 _ ltac:(lia) H2)
              (gate_open_other cmrId delivery_start (db w2) ltac:(done)))
    as ((g3 & t3 & Hev3) & Hd3 & Hs3 & Hr3 & Hrep3 & Hc3 & _).
  fold w3 in Hev3, Hd3, Hs3, Hr3, Hrep3, Hc3.
  pose proof (performs_next_after cmrId userId delivery_start w2 3 H2 Hrep3 Hc3) as H3.
  fold w3 in H3.
  set (w4 := after cmrId userId delivery_end w3).
  destruct (performed_action cmrId userId delivery_end w3 H3
              (gate_open_other cmrId delivery_end (db w3) ltac:(done)))
    as ((g4 & t4 & Hev4) & Hd4 & _). fold w4 in Hev4, Hd4.
  assert (reserves_exist cmrId (db w3) = reserves_exist cmrId (db w)) as Hres.
  { unfold reserves_exist. by rewrite Hr3, Hr2, Hr1. }
  rewrite Hres in Hev4. unfold status_written in Hd4. rewrite Hres in Hd4.
  split.
  - eexists _, _, _, _. rewrite Hev4, Hev3, Hev2, Hev1, <- !app_assoc.
    split; [reflexivity|]. split; reflexivity.
  - rewrite Hd4. rewrite lookup_alter_eq, Hd3.
    unfold status_written. rewrite lookup_alter_eq, Hd2.
    unfold status_written. rewrite lookup_alter_eq, Hd1.
    unfold status_written. rewrite lookup_alter_eq, Hdoc. reflexivity.
Qed.

Lemma full_cycle_completes_witness :
  status_of "d1-0000-0000"
    (run "d1-0000-0000" "u1" full_cycle Examples.fresh_signed)
  = Some "completed_with_reserves"
  ∧ length (cmr_events
              (db (run "d1-0000-0000" "u1" full_cycle Examples.fresh_signed)))
    = 4%nat.
Proof.
  destruct (full_cycle_completes "d1-0000-0000" "u1" Examples.fresh_signed
              (Examples.document "ready_to_load") eq_refl)
    as ((e1 & e2 & e3 & e4 & Hev & _) & Hdoc).
  - vm_compute. discriminate.
  - apply always_performs_next.
  - split.
    + unfold status_of. rewrite Hdoc. reflexivity.
    + rewrite Hev. reflexivity.
Defined.
End TransitionFacts.

(* --------------------------------------------------------------------- *)
(** ** What the page can trigger *)
(* --------------------------------------------------------------------- *)

Section PageFacts.
Import Supabase CmrActions Lifecycle Transitions DetailsPage.

(** The page offers an action only for the status just below the one the
    action writes. *)
Lemma triggerable_is_next (s : string) (a : CmrActionType) :
  a ∈ triggerable s → S (status_rank s) = target_rank a.
Proof.
  unfold triggerable, statusActionButtons, signatureSections, actionOnSignature, status_rank.
  rewrite list_elem_of_In.
  repeat match goal with
         | |- context [String.eqb s ?b] =>
             let E := fresh "E" in
             destruct (String.eqb_spec s b) as [E|E];
             [try rewrite E; vm_compute; intuition (subst; done)|]
         end.
  cbn. tauto.
Qed.

(** X8.  The buttons and signature pads of the document page offer, for
    each status, only the action that leads to the next status (none for
    a draft or a completed document).  So along any sequence of actions
    triggered from the page, each for the status the document has at that
    moment, the status never moves backward, whether the actions succeed
    or fail. *)
Theorem page_driven_sequences_monotone cmrId userId acts w :
  driven_by_page cmrId userId acts w →
  non_decreasing (rank_of cmrId w :: observed cmrId userId acts w).
Proof.
  revert w. induction acts as [|a rest IH]; intros w H; [exact I|].
  destruct H as [(s & Hs & Ha) Hrest]. cbn [observed non_decreasing]. split.
  - pose proof (triggerable_is_next s a Ha) as Hn.
    assert (rank_of cmrId w = status_rank s) as Hr
      by (unfold rank_of; by rewrite Hs).
    destruct (step_rank cmrId userId a w) as [E|E]; rewrite E; lia.
  - apply IH, Hrest.
Qed.

Lemma page_driven_sequences_monotone_witness :
  driven_by_page "d1-0000-0000" "u1" full_cycle Examples.fresh_signed
  ∧ non_decreasing
      (rank_of "d1-0000-0000" Examples.fresh_signed
       :: observed "d1-0000-0000" "u1" full_cycle Examples.fresh_signed).
Proof.
  assert (driven_by_page "d1-0000-0000" "u1" full_cycle Examples.fresh_signed)
    as H.
  { repeat split;
      (eexists; split; [vm_compute; reflexivity|];
       apply list_elem_of_In; vm_compute; tauto). }
  split.
  - exact H.
  - exact (page_driven_sequences_monotone "d1-0000-0000" "u1"
             full_cycle Examples.fresh_signed H).
Defined.
End PageFacts.

(* --------------------------------------------------------------------- *)
(** ** Status badges *)
(* --------------------------------------------------------------------- *)

Section BadgeFacts.
Import StatusHelpers StatusBadges.

Ltac all_chars c :=
  destruct c as [[] [] [] [] [] [] [] []]; vm_compute;
  try reflexivity; try discriminate.

Lemma upper_char_idem c : Js.upper_char (Js.upper_char c) = Js.upper_char c.
Proof. all_chars c. Qed.

Lemma is_word_upper c : is_word_char (Js.upper_char c) = is_word_char c.
Proof. all_chars c. Qed.

Lemma upper_char_underscore c :
  Ascii.eqb (Js.upper_char c) "_" = Ascii.eqb c "_".
Proof. all_chars c. Qed.

Lemma capitalize_words_idem s : ∀ p,
  capitalize_words p (capitalize_words p s) = capitalize_words p s.
Proof.
  induction s as [|c s IH]; intros p; [reflexivity|]. cbn [capitalize_words].
  destruct (is_word_char c && negb p) eqn:E.
  - rewrite is_word_upper, E, upper_char_idem, IH. reflexivity.
  - rewrite E, IH. reflexivity.
Qed.

Lemma capitalize_words_length s : ∀ p,
  String.length (capitalize_words p s) = String.length s.
Proof. induction s as [|c s IH]; intros p; cbn; [done|by rewrite IH]. Qed.

Lemma capitalize_words_underscore s : ∀ p,
  has_char "_" (capitalize_words p s) = has_char "_" s.
Proof.
  induction s as [|c s IH]; intros p; [reflexivity|]. cbn [capitalize_words has_char].
  rewrite IH. destruct (is_word_char c && negb p); [|done].
  by rewrite upper_char_underscore.
Qed.

Lemma underscores_to_spaces_clean s :
  has_char "_" (Js.underscores_to_spaces s) = false.
Proof.
  induction s as [|c s IH]; [reflexivity|].
  unfold Js.underscores_to_spaces in *. cbn [Js.map_chars has_char]. rewrite IH.
  destruct (Ascii.eqb_spec c "_") as [->|Hne]; [reflexivity|].
  rewrite orb_false_r. by apply Ascii.eqb_neq.
Qed.

Lemma underscores_to_spaces_id s :
  has_char "_" s = false → Js.underscores_to_spaces s = s.
Proof.
  induction s as [|c s IH]; [reflexivity|].
  unfold Js.underscores_to_spaces in *. cbn [Js.map_chars has_char].
  intros [Hc Hs]%orb_false_iff. rewrite Hc, IH; done.
Qed.

Lemma underscores_to_spaces_length s :
  String.length (Js.underscores_to_spaces s) = String.length s.
Proof.
  induction s as [|c s IH]; [reflexivity|].
  unfold Js.underscores_to_spaces in *. cbn. by rewrite IH.
Qed.

(** X9.  The label of a status has as many characters as the status and
    no underscore, and making the label of a label changes nothing. *)
Theorem status_label_shape (status : string) :
  String.length (getStatusLabel status) = String.length status
  ∧ has_char "_" (getStatusLabel status) = false
  ∧ getStatusLabel (getStatusLabel status) = getStatusLabel status.
Proof.
  unfold getStatusLabel. split; [|split].
  - by rewrite capitalize_words_length, underscores_to_spaces_length.
  - by rewrite capitalize_words_underscore, underscores_to_spaces_clean.
  - rewrite (underscores_to_spaces_id (capitalize_words _ _)).
    + apply capitalize_words_idem.
    + by rewrite capitalize_words_underscore, underscores_to_spaces_clean.
Qed.


(** X11.  The seven statuses have seven different badge colours, and a
    string that is no status gets the colour of a draft. *)
Theorem badge_colour_identifies_status :
  (∀ s1 s2 : CmrStatus,
      getStatusColor (literal s1) = getStatusColor (literal s2) → s1 = s2)
  ∧ (∀ status : string,
        (∀ s : CmrStatus, status ≠ literal s) →
        getStatusColor status = getStatusColor "draft").
Proof.
  split.
  - intros s1 s2. destruct s1, s2; vm_compute; intros H; try reflexivity; discriminate.
  - intros status H. unfold getStatusColor.
    repeat match goal with
           | |- context [String.eqb status ?b] =>
               destruct (String.eqb_spec status b) as [E|E]; [|clear E]
           end; try reflexivity.
    + by destruct (H completed).
    + by destruct (H completed_with_reserves).
    + by destruct (H in_transit).
    + by destruct (H loading).
    + by destruct (H ready_to_load).
    + by destruct (H ready_to_deliver).
Qed.
End BadgeFacts.

(* --------------------------------------------------------------------- *)
(** ** Dashboard and onboarding *)
(* --------------------------------------------------------------------- *)

Section DashboardFacts.
Import StatusHelpers Dashboard.

Lemma not_in_progress_is_completed (s : CmrStatus) :
  negb (isInProgress (literal s)) = isCompleted (literal s).
Proof. by destruct s. Qed.

Lemma filter_ext_Forall {A} (f g : A → bool) (l : list A) :
  Forall (λ x, f x = g x) l → List.filter f l = List.filter g l.
Proof.
  induction 1 as [|x l Hx _ IH]; [done|]. cbn. by rewrite Hx, IH.
Qed.

(** X12.  When every document carries one of the seven statuses, the
    second list of the dashboard holds the first ten completed documents
    of the query, in the order of the query, and each document of the
    query is in progress or completed, never both and never neither. *)
Theorem dashboard_lists (data : list CmrDocument.t) :
  Forall (λ cmr, ∃ s, CmrDocument.status cmr = literal s) data →
  completedCmrs data
  = take 10 (List.filter (fun cmr => isCompleted (CmrDocument.status cmr)) data)
  ∧ (length (completedCmrs data) ≤ 10)%nat
  ∧ (length (inProgressCmrs data)
     + length (List.filter (fun cmr => isCompleted (CmrDocument.status cmr)) data)
     = length data)%nat.
Proof.
  intros Hvalid.
  assert (List.filter (fun cmr => negb (isInProgress (CmrDocument.status cmr))) data
          = List.filter (fun cmr => isCompleted (CmrDocument.status cmr)) data) as E.
  { apply filter_ext_Forall. eapply Forall_impl; [exact Hvalid|].
    intros cmr [s ->]. apply not_in_progress_is_completed. }
  unfold completedCmrs, inProgressCmrs. rewrite E. split; [done|]. split.
  - rewrite length_take. lia.
  - rewrite <- E. clear. induction data as [|c data IH]; [done|].
    simpl. destruct (isInProgress (CmrDocument.status c)); simpl; lia.
Qed.

Lemma dashboard_lists_witness :
  completedCmrs Scenarios.documents = [Examples.document "completed"]
  ∧ (length (inProgressCmrs Scenarios.documents) + 1 = 3)%nat.
Proof.
  destruct (dashboard_lists Scenarios.documents) as (Hc & _ & Hn).
  - repeat constructor;
      [by exists loading | by exists completed | by exists draft].
  - split; [rewrite Hc; reflexivity | exact Hn].
Defined.
End DashboardFacts.

Section OnboardingFacts.
Import Supabase OnboardingCheck.


(** X14.  A redirect of the guard does not loop: on the page it pushes,
    the guard itself stays, and when that page is the vehicles step the
    check of that page stays too, for the same onboarding status. *)
Theorem onboarding_redirects_do_not_loop pathname user status path :
  checkOnboarding pathname (Some user) status = Push path →
  checkOnboarding (Some path) (Some user) status = Stay
  ∧ (path = "/onboarding/vehicles" → checkAuth (Some user) status = Stay).
Proof.
  unfold checkOnboarding, checkAuth, getOnboardingRedirectPath.
  destruct (match pathname with Some p => _ | None => false end); [done|].
  destruct (isComplete status); [done|].
  destruct (hasProfile status); cbn.
  - destruct (hasVehicles status); cbn; [done|]. by intros [= <-].
  - intros [= <-]. split; [done|]. done.
Qed.

Lemma onboarding_redirects_do_not_loop_witness :
  checkOnboarding (Some "/onboarding/profile") (Some "u1") nothing_done = Stay.
Proof.
  apply (onboarding_redirects_do_not_loop (Some "/app") "u1" nothing_done
           "/onboarding/profile" eq_refl).
Defined.
End OnboardingFacts.

(* --------------------------------------------------------------------- *)
(** ** Photos: filename, upload, listing, deletion *)
(* --------------------------------------------------------------------- *)

Section PhotoFacts.
Import Supabase PhotoUpload PhotoList.

Ltac run_photos :=
  cbv beta iota zeta delta
    [fetchCmrPhotos select_photos uploadCmrPhoto
     Supabase.insert_photo Supabase.storage_upload Supabase.storage_remove
     Supabase.getPublicUrl Supabase.request Supabase.try_catch
     mbind mret async_bind async_ret Supabase.bind Supabase.ret
     Supabase.throw Supabase.ok Supabase.failed
     Supabase.data Supabase.error fst snd].

Lemma string_app_cons c (s t : string) : String c s +:+ t = String c (s +:+ t).
Proof. reflexivity. Qed.

Lemma string_app_nil_r (s : string) : s +:+ "" = s.
Proof. induction s as [|c s IH]; [done|]. by rewrite string_app_cons, IH. Qed.

Lemma string_app_assoc (a b c : string) : a +:+ (b +:+ c) = (a +:+ b) +:+ c.
Proof. induction a as [|x a IH]; [done|]. by rewrite !string_app_cons, IH. Qed.

Lemma has_dot_snoc cur c :
  has_dot cur = false → Ascii.eqb c "." = false →
  has_dot (cur +:+ String c "") = false.
Proof.
  intros Hcur Ec. induction cur as [|d cur IH].
  - change (has_dot (String c "") = false). cbn [has_dot]. by rewrite Ec.
  - rewrite string_app_cons. cbn [has_dot] in *.
    apply orb_false_iff in Hcur as [-> ?]. cbn [orb]. auto.
Qed.

Lemma split_dot_pop_spec s : ∀ cur,
  has_dot cur = false →
  has_dot (Js.split_dot_pop cur s) = false
  ∧ (∃ before, cur +:+ s = before +:+ Js.split_dot_pop cur s)
  ∧ (has_dot s = false → Js.split_dot_pop cur s = cur +:+ s).
Proof.
  induction s as [|c rest IH]; intros cur Hcur; cbn [Js.split_dot_pop].
  - rewrite string_app_nil_r. split; [done|]. split; [by exists ""|done].
  - destruct (Ascii.eqb c ".") eqn:Ec.
    + destruct (IH "" eq_refl) as (Hd & [before Hb] & _).
      split; [done|]. split; [|cbn [has_dot]; rewrite Ec; done].
      exists (cur +:+ String c before).
      change ("" +:+ rest) with rest in Hb.
      rewrite <- string_app_assoc, string_app_cons. by rewrite <- Hb.
    + destruct (IH _ (has_dot_snoc _ _ Hcur Ec)) as (Hd & [before Hb] & Hn).
      assert (Ha : (cur +:+ String c "") +:+ rest = cur +:+ String c rest)
        by (by rewrite <- string_app_assoc).
      rewrite Ha in *. split; [done|]. split; [by exists before|].
      cbn [has_dot]. rewrite Ec. exact Hn.
Qed.

(** X15.  The extension taken from a file name holds no dot and is the
    end of the name; it is what follows the last dot, and for a name
    without a dot it is the whole name. *)
Theorem file_extension_shape s :
  has_dot (Js.split_dot_pop "" s) = false
  ∧ (∃ before, s = before +:+ Js.split_dot_pop "" s)
  ∧ (has_dot s = false → Js.split_dot_pop "" s = s)
  ∧ (∀ stem ext, has_dot ext = false →
       Js.split_dot_pop "" (stem +:+ "." +:+ ext) = ext).
Proof.
  destruct (split_dot_pop_spec s "" eq_refl) as (H1 & H2 & H3).
  repeat split; try done.
  intros stem ext Hext.
  assert (Hn : Js.split_dot_pop "" ext = ext)
    by (by destruct (split_dot_pop_spec ext "" eq_refl) as (_ & _ & ->)).
  assert (Hgo : ∀ cur, Js.split_dot_pop cur (stem +:+ String "." ext) = ext).
  { induction stem as [|c stem IH]; intros cur.
    - exact Hn.
    - rewrite string_app_cons. cbn [Js.split_dot_pop].
      destruct (Ascii.eqb c "."); apply IH. }
  apply Hgo.
Qed.

(** X16.  When the storage refuses the upload, [uploadCmrPhoto] throws
    "Failed to upload photo: " followed by the service's message, after
    that one request: no row is inserted and nothing is stored. *)
Theorem refused_upload_changes_nothing timestamp randomString file cmrId userId w e :
  replies w (length (calls w)) = Refused e →
  uploadCmrPhoto timestamp randomString file cmrId userId w
  = (Threw (ThrowError ("Failed to upload photo: " +:+ message e)),
     record_call
       (Upload "cmr-photos" (storagePath timestamp randomString file cmrId userId))
       w).
Proof. intros H. run_photos. rewrite H. reflexivity. Qed.

Lemma refused_upload_changes_nothing_witness :
  uploadCmrPhoto 1736930000000 "k3x9a" Examples.photo_file "d1-0000-0000" "u1"
    (Scenarios.refused_at 0)
  = (Threw (ThrowError "Failed to upload photo: connection lost"),
     record_call
       (Upload "cmr-photos" "u1/d1-0000-0000/1736930000000_k3x9a.jpg")
       (Scenarios.refused_at 0)).
Proof.
  apply (refused_upload_changes_nothing 1736930000000 "k3x9a" Examples.photo_file
           "d1-0000-0000" "u1" (Scenarios.refused_at 0)
           {| message := "connection lost" |}).
  reflexivity.
Defined.

Lemma later_total {A} (column : A → string) : Total (Postgrest.later column).
Proof.
  intros a b. unfold Postgrest.later.
  destruct (String.leb_total (column a) (column b)) as [H|H]; rewrite H;
    [right|left]; exact I.
Qed.

Lemma string_compare_trans (s1 : string) : ∀ s2 s3,
  String.compare s1 s2 ≠ Gt → String.compare s2 s3 ≠ Gt →
  String.compare s1 s3 ≠ Gt.
Proof.
  induction s1 as [|a s1 IH]; intros [|b s2] [|c s3]; cbn; try done.
  unfold Ascii.compare.
  destruct (N.compare_spec (N_of_ascii a) (N_of_ascii b)) as [Eab|Lab|Gab];
    destruct (N.compare_spec (N_of_ascii b) (N_of_ascii c)) as [Ebc|Lbc|Gbc];
    try done.
  - rewrite Eab, Ebc, N.compare_refl. apply IH.
  - rewrite Eab. by rewrite (proj2 (N.compare_lt_iff _ _) Lbc).
  - rewrite <- Ebc. by rewrite (proj2 (N.compare_lt_iff _ _) Lab).
  - by rewrite (proj2 (N.compare_lt_iff _ _) (N.lt_trans _ _ _ Lab Lbc)).
Qed.

Lemma string_leb_trans (s1 s2 s3 : string) :
  String.leb s1 s2 = true → String.leb s2 s3 = true → String.leb s1 s3 = true.
Proof.
  unfold String.leb. intros H1 H2.
  pose proof (string_compare_trans s1 s2 s3) as H.
  destruct (String.compare s1 s2), (String.compare s2 s3),
    (String.compare s1 s3); try done; exfalso; by apply H.
Qed.

Lemma later_trans {A} (column : A → string) : Transitive (Postgrest.later column).
Proof.
  intros a b c H1 H2. unfold Postgrest.later in *.
  apply Is_true_true in H1, H2. apply Is_true_true.
  by eapply string_leb_trans.
Qed.

(** The first of the rows sorted newest first. *)
Lemma order_desc_head {A} (column : A → string) (rows : list A) :
  match head (Postgrest.order_desc column rows) with
  | None => rows = []
  | Some row =>
      row ∈ rows
      ∧ ∀ other, other ∈ rows → String.leb (column other) (column row) = true
  end.
Proof.
  unfold Postgrest.order_desc.
  pose proof (merge_sort_Permutation (Postgrest.later column) rows) as Hp.
  pose proof (@StronglySorted_merge_sort _ (Postgrest.later column) _
                (later_trans column) (later_total column) rows) as Hs.
  destruct (merge_sort _ rows) as [|row rest]; cbn [head].
  - by apply Permutation_nil_l in Hp.
  - split; [rewrite <- Hp; left|].
    intros other Ho. rewrite <- Hp in Ho.
    apply StronglySorted_inv in Hs as [_ Hall].
    apply elem_of_cons in Ho as [->|Ho].
    + destruct (String.leb_total (column row) (column row)); done.
    + rewrite List.Forall_forall in Hall. apply Is_true_true, Hall.
      by apply list_elem_of_In.
Qed.


(** The fetch when the service performs the query. *)
Lemma fetch_photos_performed cmrId w gid gat :
  replies w (length (calls w)) = Performed gid gat →
  fetchCmrPhotos cmrId w
  = (Returned
       (withPublicUrl (supabaseUrl w)
          <$> Postgrest.order_desc CmrPhoto.created_at
                (filter (fun p => CmrPhoto.cmr_id p = cmrId) (cmr_photos (db w)))),
     record_call (Select "cmr_photos" [("cmr_id", cmrId)]) w).
Proof. intros H. run_photos. by rewrite H. Qed.

(** What a returned upload tells. *)
Lemma upload_returned timestamp randomString file cmrId userId w r w1 :
  uploadCmrPhoto timestamp randomString file cmrId userId w = (Returned r, w1) →
  ∃ row,
    r = withPublicUrl (supabaseUrl w) row
    ∧ CmrPhoto.cmr_id row = cmrId
    ∧ CmrPhoto.storage_path row = storagePath timestamp randomString file cmrId userId
    ∧ cmr_photos (db w1) = cmr_photos (db w) ++ [row]
    ∧ objects w1 = <[("cmr-photos", CmrPhoto.storage_path row) := file]> (objects w)
    ∧ objects w !! ("cmr-photos", CmrPhoto.storage_path row) = None
    ∧ supabaseUrl w1 = supabaseUrl w
    ∧ replies w1 = replies w
    ∧ calls w1 = calls w ++ [Upload "cmr-photos" (CmrPhoto.storage_path row);
                             Insert "cmr_photos"]
    ∧ cmr_documents (db w1) = cmr_documents (db w)
    ∧ cmr_events (db w1) = cmr_events (db w)
    ∧ cmr_signatures (db w1) = cmr_signatures (db w)
    ∧ cmr_reserves (db w1) = cmr_reserves (db w).
Proof.
  run_photos.
  repeat (world_simpl;
          match goal with
          | |- context [match replies ?w ?n with _ => _ end] => destruct (replies w n)
          | |- context [match objects ?w !! ?k with _ => _ end] =>
              let E := fresh "E" in destruct (objects w !! k) eqn:E
          end); world_simpl; intros [= <- <-]; world_simpl.
  match goal with |- context [Some ?r] => exists r end.
  cbn. repeat split; try done.
  by rewrite <- app_assoc.
Qed.

(** X18.  A photo whose upload returned is in the list the next fetch of
    the same document returns, with the same row and the same URL, and
    that fetch changes no table and no stored object. *)
Theorem uploaded_photo_is_listed timestamp randomString file cmrId userId w r w1 :
  uploadCmrPhoto timestamp randomString file cmrId userId w = (Returned r, w1) →
  (∃ gid gat, replies w1 (length (calls w1)) = Performed gid gat) →
  ∃ photos w2,
    fetchCmrPhotos cmrId w1 = (Returned photos, w2)
    ∧ r ∈ photos
    ∧ db w2 = db w1 ∧ objects w2 = objects w1.
Proof.
  intros Hup (gid & gat & Hrep).
  destruct (upload_returned _ _ _ _ _ _ _ _ Hup)
    as (row & -> & Hid & Hpath & Hphotos & _ & _ & Hurl & _).
  rewrite (fetch_photos_performed cmrId w1 gid gat Hrep).
  eexists _, _. split; [reflexivity|]. split; [|split; reflexivity].
  rewrite Hurl. apply list_elem_of_fmap_2. unfold Postgrest.order_desc.
  rewrite merge_sort_Permutation, Hphotos, filter_app, filter_cons, decide_True by done.
  set_solver.
Qed.

Lemma uploaded_photo_is_listed_witness :
  ∃ photos w2,
    fetchCmrPhotos "d1-0000-0000" Scenarios.after_upload = (Returned photos, w2)
    ∧ Scenarios.uploaded_photo ∈ photos
    ∧ db w2 = db Scenarios.after_upload
    ∧ objects w2 = objects Scenarios.after_upload.
Proof.
  apply (uploaded_photo_is_listed 1736930000000 "k3x9a" Examples.photo_file
           "d1-0000-0000" "u1" Examples.loading_unsigned).
  - reflexivity.
  - by eexists _, _.
Defined.
End PhotoFacts.

Section DeleteFacts.
Import Supabase PhotoUpload PhotoList PhotoDelete.

Ltac run_delete :=
  cbv beta iota zeta delta
    [deleteCmrPhoto delete_photo_row
     Supabase.storage_remove Supabase.request Supabase.try_catch
     mbind mret async_bind async_ret Supabase.bind Supabase.ret
     Supabase.throw Supabase.ok Supabase.failed
     Supabase.data Supabase.error fst snd].

(** X19.  [deleteCmrPhoto] sends the removal of the binary first and goes
    on whatever the storage answers.  Whether it returns depends on the
    deletion of the row alone: when that is refused it throws "Failed to
    delete photo: " and the service's message and the row stays, also
    when the binary is already gone; when it is performed the rows with
    that id are gone, also when the binary could not be removed. *)
Theorem delete_photo_outcomes answer photoId storagePath w :
  let out := deleteCmrPhoto answer photoId storagePath w in
  out.1 = match answer with
          | Refused e =>
              Threw (ThrowError ("Failed to delete photo: " +:+ message e))
          | Performed _ _ => Returned tt
          end
  ∧ cmr_photos (db out.2)
    = match answer with
      | Refused _ => cmr_photos (db w)
      | Performed _ _ =>
          filter (fun p => CmrPhoto.id p ≠ photoId) (cmr_photos (db w))
      end
  ∧ objects out.2
    = match replies w (length (calls w)) with
      | Refused _ => objects w
      | Performed _ _ => delete ("cmr-photos", storagePath) (objects w)
      end
  ∧ calls out.2 = calls w ++ [Remove "cmr-photos" [storagePath]].
Proof.
  run_delete. destruct (replies w (length (calls w))), answer; world_simpl; done.
Qed.

Lemma filter_other_ids (photoId : string) (l : list CmrPhoto.t) :
  (∀ p, p ∈ l → CmrPhoto.id p ≠ photoId) →
  filter (fun p => CmrPhoto.id p ≠ photoId) l = l.
Proof.
  induction l as [|p l IH]; intros H; [done|].
  rewrite filter_cons, decide_True by (apply H; left).
  f_equal. apply IH. intros q Hq. apply H. by right.
Qed.

(** X20.  Deleting a photo that was just uploaded, with the id and the
    storage path the upload returned, undoes the upload: when both
    requests are performed and no older photo has that id, the tables and
    the stored objects are what they were before the upload. *)
Theorem upload_then_delete_restores
    timestamp randomString file cmrId userId w r w1 row answer_id answer_at :
  uploadCmrPhoto timestamp randomString file cmrId userId w = (Returned r, w1) →
  photoRecord r = Some row →
  (∀ p, p ∈ cmr_photos (db w) → CmrPhoto.id p ≠ CmrPhoto.id row) →
  (∃ gid gat, replies w1 (length (calls w1)) = Performed gid gat) →
  let out :=
    deleteCmrPhoto (Performed answer_id answer_at)
      (CmrPhoto.id row) (CmrPhoto.storage_path row) w1 in
  out.1 = Returned tt ∧ db out.2 = db w ∧ objects out.2 = objects w.
Proof.
  intros Hup Hrow Hfresh (gid & gat & Hrep).
  destruct (upload_returned _ _ _ _ _ _ _ _ Hup)
    as (row' & -> & Hid & Hpath & Hphotos & Hobj & Hfree & Hurl & _ & _
        & Hd1 & Hd2 & Hd3 & Hd4).
  cbn in Hrow. injection Hrow as ->.
  run_delete. rewrite Hrep. world_simpl. split; [done|]. split.
  - rewrite Hd1, Hd2, Hd3, Hd4, Hphotos, filter_app, filter_other_ids by done.
    rewrite filter_cons, decide_False by (intros Hn; by apply Hn).
    rewrite filter_nil, app_nil_r. by destruct (db w).
  - rewrite Hobj. cbn [foldr]. by rewrite delete_insert_id.
Qed.

Lemma upload_then_delete_restores_witness :
  let out :=
    deleteCmrPhoto (Performed "" "") "row-1"
      "u1/d1-0000-0000/1736930000000_k3x9a.jpg" Scenarios.after_upload in
  out.1 = Returned tt
  ∧ db out.2 = db Examples.loading_unsigned
  ∧ objects out.2 = objects Examples.loading_unsigned.
Proof.
  apply (upload_then_delete_restores 1736930000000 "k3x9a" Examples.photo_file
           "d1-0000-0000" "u1" Examples.loading_unsigned
           Scenarios.uploaded_photo Scenarios.after_upload
           Scenarios.uploaded_row "" "").
  - reflexivity.
  - reflexivity.
  - intros p Hp. by apply not_elem_of_nil in Hp.
  - by eexists _, _.
Defined.
End DeleteFacts.

Section PhotosSectionFacts.
Import Supabase PhotoUpload PhotosSection.

(** X21.  The photo section never shows more than three photos through
    its file input: from at most three photos, [handleFileChange] leaves
    at most three, whatever the file and whatever the service answers. *)
Theorem photo_list_stays_within_limit
    timestamp randomString picked user cmrId st w :
  (length (photos st) ≤ 3)%nat →
  (length (photos (handleFileChange timestamp randomString picked user cmrId st w).1)
   ≤ 3)%nat.
Proof.
  intros H. unfold handleFileChange.
  destruct picked as [f|], user as [u|]; try done.
  destruct (negb _); [done|]. destruct (_ <? _)%N; [done|].
  destruct (Nat.leb_spec 3 (length (photos st))); [done|].
  destruct (uploadCmrPhoto _ _ _ _ _ _) as [[r|[e|m]] w']; cbn; lia.
Qed.

Lemma photo_list_stays_within_limit_witness :
  (length (photos (handleFileChange 1736930000000 "k3x9a"
                     (Some Scenarios.picked_photo) (Some "u1") "d1-0000-0000"
                     Scenarios.full_section Examples.loading_unsigned).1)
   ≤ 3)%nat.
Proof.
  apply (photo_list_stays_within_limit 1736930000000 "k3x9a"
           (Some Scenarios.picked_photo) (Some "u1") "d1-0000-0000"
           Scenarios.full_section Examples.loading_unsigned).
  cbn. lia.
Defined.

(** X22.  [handleFileChange] reaches the service only with a file whose
    type starts with "image/", whose size is at most 10 MB, from a signed-in
    user, and while fewer than three photos are shown; in every other
    case no request is sent. *)
Theorem only_checked_files_are_uploaded
    timestamp randomString picked user cmrId st w :
  (handleFileChange timestamp randomString picked user cmrId st w).2 ≠ w →
  ∃ f userId,
    picked = Some f ∧ user = Some userId
    ∧ String.prefix "image/" (type f) = true
    ∧ (size f ≤ 10485760)%N
    ∧ (length (photos st) < 3)%nat.
Proof.
  unfold handleFileChange.
  destruct picked as [f|], user as [u|]; try done.
  destruct (String.prefix "image/" (type f)) eqn:Et; [|done]. cbn [negb].
  destruct (N.ltb_spec (10 * 1024 * 1024) (size f)); [done|].
  destruct (Nat.leb_spec 3 (length (photos st))); [done|].
  intros _. exists f, u. repeat split; try done.
Qed.

Lemma only_checked_files_are_uploaded_witness :
  ∃ f userId,
    Some Scenarios.picked_photo = Some f ∧ Some "u1" = Some userId
    ∧ String.prefix "image/" (type f) = true
    ∧ (size f ≤ 10485760)%N
    ∧ (length (photos Scenarios.empty_section) < 3)%nat.
Proof.
  apply (only_checked_files_are_uploaded 1736930000000 "k3x9a"
           (Some Scenarios.picked_photo) (Some "u1") "d1-0000-0000"
           Scenarios.empty_section Examples.loading_unsigned).
  intros H. apply (f_equal calls) in H. vm_compute in H. discriminate.
Defined.
End PhotosSectionFacts.

(* --------------------------------------------------------------------- *)
(** ** Signatures: capture and lookup *)
(* --------------------------------------------------------------------- *)

Section SignatureFacts.
Import Supabase CmrActions Lifecycle Transitions SignatureCapture.

Ltac run_capture :=
  cbv beta iota zeta delta
    [handleSaveSignature insert_signature
     Supabase.storage_upload Supabase.storage_remove
     Supabase.request Supabase.try_catch
     mbind mret async_bind async_ret Supabase.bind Supabase.ret
     Supabase.throw Supabase.ok Supabase.failed
     Supabase.data Supabase.error fst snd].

(** X23.  When the insert of the signature row is refused after the
    drawing was stored, the handler asks the storage to remove the
    drawing and throws the service's error as it is: no table has
    changed, no lifecycle action was invoked, also for the consignee, and
    the stored objects are as before when the removal is performed; when
    the removal is refused too, the drawing stays in the storage. *)
Theorem signature_insert_failure_cleans_up
    timestamp urlData userId cmrId partyType name role email blob w g1 t1 e :
  objects w !! ("cmr-signatures", fileName cmrId partyType timestamp) = None →
  replies w (length (calls w)) = Performed g1 t1 →
  replies w (length (calls w) + 1) = Refused e →
  let out :=
    handleSaveSignature timestamp urlData (Some userId) cmrId partyType
      name role email blob w in
  out.1 = Threw (ThrowService e)
  ∧ db out.2 = db w
  ∧ calls out.2
    = calls w ++ [Upload "cmr-signatures" (fileName cmrId partyType timestamp);
                  Insert "cmr_signatures";
                  Remove "cmr-signatures" [fileName cmrId partyType timestamp]]
  ∧ objects out.2
    = match replies w (length (calls w) + 2) with
      | Performed _ _ => objects w
      | Refused _ =>
          <[("cmr-signatures", fileName cmrId partyType timestamp) := blob]>
            (objects w)
      end.
Proof.
  intros Hfree E0 E1. run_capture. rewrite E0. world_simpl. rewrite Hfree.
  world_simpl. rewrite E1. world_simpl.
  rewrite <- Nat.add_assoc. cbn [Nat.add].
  destruct (replies w (length (calls w) + 2)); world_simpl;
    repeat split; try done; try (by rewrite <- !app_assoc).
  cbn [foldr]. by rewrite delete_insert_id.
Qed.

Lemma signature_insert_failure_cleans_up_witness :
  let out :=
    handleSaveSignature 1736930000000 None (Some "u1") "d1-0000-0000" "consignee"
      (Some "Jane Smith") None None Scenarios.signature_blob
      (Scenarios.refused_at 1) in
  out.1 = Threw (ThrowService {| message := "connection lost" |})
  ∧ db out.2 = db (Scenarios.refused_at 1)
  ∧ objects out.2 = objects (Scenarios.refused_at 1).
Proof.
  destruct (signature_insert_failure_cleans_up 1736930000000 None "u1"
              "d1-0000-0000" "consignee" (Some "Jane Smith") None None
              Scenarios.signature_blob (Scenarios.refused_at 1)
              "row-0" "2025-01-15T09:30:00Z" {| message := "connection lost" |}
              eq_refl eq_refl eq_refl)
    as (Hthrow & Hdb & _ & Hobj).
  intros out. split; [exact Hthrow|]. split; [exact Hdb|exact Hobj].
Defined.

Lemma capture_stores_then_acts
    timestamp urlData userId cmrId partyType name role email blob w g0 t0 gid gat :
  objects w !! ("cmr-signatures", fileName cmrId partyType timestamp) = None →
  replies w (length (calls w)) = Performed g0 t0 →
  replies w (length (calls w) + 1) = Performed gid gat →
  let path := fileName cmrId partyType timestamp in
  let w2 := signed_world cmrId userId partyType name role email path blob gid gat w in
  let row := CmrSignature.mk gid cmrId userId partyType name role email path gat in
  let shown :=
    match urlData with
    | Some signedUrl => Some {| signatureData := Some row; url := signedUrl |}
    | None => None
    end in
  handleSaveSignature timestamp urlData (Some userId) cmrId partyType
    name role email blob w
  = if String.eqb partyType "consignee"
    then match performCmrAction cmrId userId "delivery_end" w2 with
         | (Returned _, w3) => (Returned shown, w3)
         | (Threw t, w3) => (Threw t, w3)
         end
    else (Returned shown, w2).
Proof.
  intros Hfree E0 E1. run_capture. rewrite E0. world_simpl. rewrite Hfree.
  world_simpl. rewrite E1. world_simpl. unfold signed_world.
  destruct (String.eqb partyType "consignee"); [|reflexivity].
  by destruct (performCmrAction _ _ _ _) as [[[]|t] w3].
Qed.

Lemma performs_next_signed k cmrId userId partyType name role email path blob gid gat w :
  performs_next (2 + k) w →
  performs_next k
    (signed_world cmrId userId partyType name role email path blob gid gat w).
Proof.
  intros H i Hi. unfold signed_world. world_simpl.
  destruct (H (2 + i)%nat ltac:(lia)) as (g & t & E).
  exists g, t. rewrite <- E. f_equal. lia.
Qed.

(** X24.  Saving the consignee's signature completes the delivery: when
    the service performs the five requests, the handler returns, the
    drawing is stored, one signature row of party [consignee] is added
    for the document, one [delivery_end] event is added, and the
    document's status is [completed_with_reserves] when the document has
    a reserve and [completed] otherwise. *)
Theorem consignee_signature_completes_delivery
    timestamp urlData userId cmrId name role email blob w doc :
  cmr_documents (db w) !! cmrId = Some doc →
  objects w !! ("cmr-signatures", fileName cmrId "consignee" timestamp) = None →
  performs_next 5 w →
  let final := written_status delivery_end (reserves_exist cmrId (db w)) in
  ∃ sig w' event,
    handleSaveSignature timestamp urlData (Some userId) cmrId "consignee"
      name role email blob w
    = (Returned (match urlData with
                 | Some signedUrl =>
                     Some {| signatureData := Some sig; url := signedUrl |}
                 | None => None
                 end), w')
    ∧ cmr_signatures (db w') = cmr_signatures (db w) ++ [sig]
    ∧ CmrSignature.cmr_id sig = cmrId
    ∧ CmrSignature.party_type sig = "consignee"
    ∧ objects w' !! ("cmr-signatures", CmrSignature.storage_path sig) = Some blob
    ∧ cmr_documents (db w') !! cmrId = Some (CmrDocument.with_status final doc)
    ∧ cmr_events (db w') = cmr_events (db w) ++ [event]
    ∧ CmrEvent.type event = "delivery_end".
Proof.
  intros Hdoc Hfree H final.
  destruct (performs_next_at 5 w 0 H ltac:(lia)) as (g0 & t0 & E0).
  destruct (performs_next_at 5 w 1 H ltac:(lia)) as (g1 & t1 & E1).
  rewrite Nat.add_0_r in E0.
  rewrite (capture_stores_then_acts _ _ _ _ _ _ _ _ _ _ _ _ _ _ Hfree E0 E1).
  change (String.eqb "consignee" "consignee") with true. cbv iota.
  set (path := fileName cmrId "consignee" timestamp).
  set (w2 := signed_world _ _ _ _ _ _ _ _ _ _ _).
  assert (H2 : performs_next 3 w2) by (apply performs_next_signed, H).
  destruct (performed_action cmrId userId delivery_end w2 H2
              (gate_open_other cmrId delivery_end (db w2) ltac:(done)))
    as ((g & t & Hev) & Hd & Hs & Hr & _ & _ & Hret & _ & Hobj & _).
  unfold after in *. change (tag delivery_end) with "delivery_end" in *.
  destruct (performCmrAction cmrId userId "delivery_end" w2) as [o w3].
  cbn [fst snd] in *. subst o.
  eexists _, w3, _. split; [reflexivity|].
  rewrite Hs, Hobj, Hd, Hev. unfold status_written, w2, signed_world. world_simpl.
  repeat split; try done.
  - by rewrite lookup_insert_eq.
  - by rewrite lookup_alter_eq, Hdoc.
Qed.

Lemma consignee_signature_completes_delivery_witness :
  ∃ shown w',
    handleSaveSignature 1736930000000 None (Some "u1") "d1-0000-0000" "consignee"
      (Some "Jane Smith") None None Scenarios.signature_blob Examples.at_consignee
    = (Returned shown, w')
    ∧ status_of "d1-0000-0000" w' = Some "completed_with_reserves".
Proof.
  destruct (consignee_signature_completes_delivery 1736930000000 None "u1"
              "d1-0000-0000" (Some "Jane Smith") None None
              Scenarios.signature_blob Examples.at_consignee
              (Examples.document "ready_to_deliver") eq_refl eq_refl
              (always_performs_next 5 _ _ _))
    as (sig & w' & event & Hrun & _ & _ & _ & _ & Hdoc & _).
  eexists _, w'. split; [exact Hrun|].
  unfold status_of. rewrite Hdoc. reflexivity.
Defined.

(** X25.  The capture of the consignee's signature is not undone when
    the completion fails: if the service refuses the first request of
    [delivery_end], the handler throws the service's error, while the
    signature row and the stored drawing stay and the document keeps the
    status it had, with no [delivery_end] event. *)
Theorem consignee_signature_survives_failed_completion
    timestamp urlData userId cmrId name role email blob w e :
  objects w !! ("cmr-signatures", fileName cmrId "consignee" timestamp) = None →
  performs_next 2 w →
  replies w (length (calls w) + 2) = Refused e →
  let out :=
    handleSaveSignature timestamp urlData (Some userId) cmrId "consignee"
      name role email blob w in
  out.1 = Threw (ThrowService e)
  ∧ (∃ sig,
        cmr_signatures (db out.2) = cmr_signatures (db w) ++ [sig]
        ∧ CmrSignature.cmr_id sig = cmrId
        ∧ CmrSignature.party_type sig = "consignee"
        ∧ objects out.2 !! ("cmr-signatures", CmrSignature.storage_path sig)
          = Some blob)
  ∧ cmr_documents (db out.2) = cmr_documents (db w)
  ∧ cmr_events (db out.2) = cmr_events (db w).
Proof.
  intros Hfree H Hr.
  destruct (performs_next_at 2 w 0 H ltac:(lia)) as (g0 & t0 & E0).
  destruct (performs_next_at 2 w 1 H ltac:(lia)) as (g1 & t1 & E1).
  rewrite Nat.add_0_r in E0.
  rewrite (capture_stores_then_acts _ _ _ _ _ _ _ _ _ _ _ _ _ _ Hfree E0 E1).
  change (String.eqb "consignee" "consignee") with true. cbv iota.
  change (performCmrAction cmrId userId "delivery_end")
    with (completeDelivery cmrId userId).
  unfold signed_world.
  run_async. world_simpl.
  rewrite <- Nat.add_assoc. cbn [Nat.add]. rewrite Hr. world_simpl.
  split; [done|]. split; [|done].
  eexists. split; [reflexivity|]. cbn. repeat split.
  by rewrite lookup_insert_eq.
Qed.

Lemma consignee_signature_survives_failed_completion_witness :
  let out :=
    handleSaveSignature 1736930000000 None (Some "u1") "d1-0000-0000" "consignee"
      (Some "Jane Smith") None None Scenarios.signature_blob
      Scenarios.completion_refused in
  out.1 = Threw (ThrowService {| message := "connection lost" |})
  ∧ length (cmr_signatures (db out.2)) = 2%nat
  ∧ status_of "d1-0000-0000" out.2 = Some "ready_to_deliver".
Proof.
  destruct (consignee_signature_survives_failed_completion 1736930000000 None
              "u1" "d1-0000-0000" (Some "Jane Smith") None None
              Scenarios.signature_blob Scenarios.completion_refused
              {| message := "connection lost" |})
    as (Hthrow & (sig & Hsig & _) & Hdoc & _).
  - reflexivity.
  - intros i Hi. destruct i as [|[|i]]; [by eexists _, _ ..|lia].
  - reflexivity.
  - split; [exact Hthrow|]. split.
    + rewrite Hsig. reflexivity.
    + unfold status_of. rewrite Hdoc. reflexivity.
Defined.

(** X26.  Saving the shipper's signature invokes no lifecycle action: it
    changes no document and adds no event.  It opens the gate of
    [loading_end]: when the handler returned, the next [loading_end] on
    the document returns, if the service performs its requests. *)
Theorem shipper_signature_opens_loading_gate
    timestamp urlData userId cmrId name role email blob w shown w1 :
  handleSaveSignature timestamp urlData (Some userId) cmrId "shipper"
    name role email blob w = (Returned shown, w1) →
  gate_open cmrId loading_end (db w1)
  ∧ cmr_documents (db w1) = cmr_documents (db w)
  ∧ cmr_events (db w1) = cmr_events (db w)
  ∧ (performs_next 3 w1 →
     (performCmrAction cmrId userId "loading_end" w1).1 = Returned tt).
Proof.
  intros Hcap.
  assert (Hgate : gate_open cmrId loading_end (db w1)
                  ∧ cmr_documents (db w1) = cmr_documents (db w)
                  ∧ cmr_events (db w1) = cmr_events (db w)).
  { revert Hcap. run_capture.
    change (String.eqb "shipper" "consignee") with false. cbv iota.
    repeat (world_simpl;
            match goal with
            | |- context [match replies ?w ?n with _ => _ end] =>
                destruct (replies w n)
            | |- context [match objects ?w !! ?k with _ => _ end] =>
                destruct (objects w !! k)
            end); world_simpl; intros [= <- <-]; world_simpl.
    split; [|done]. intros _. unfold shipper_signatures. world_simpl.
    rewrite filter_app, filter_cons, decide_True by done.
    intros Hn. by apply app_eq_nil in Hn as [_ ?]. }
  destruct Hgate as (Hg & Hd & He). repeat split; try done.
  intros H3.
  by destruct (performed_action cmrId userId loading_end w1 H3 Hg)
    as (_ & _ & _ & _ & _ & _ & Hret & _).
Qed.

Lemma shipper_signature_opens_loading_gate_witness :
  let w1 :=
    (handleSaveSignature 1736930000000 None (Some "u1") "d1-0000-0000" "shipper"
       (Some "John Doe") None None Scenarios.signature_blob
       Examples.loading_unsigned).2 in
  gate_open "d1-0000-0000" loading_end (db w1)
  ∧ (performCmrAction "d1-0000-0000" "u1" "loading_end" w1).1 = Returned tt.
Proof.
  destruct (shipper_signature_opens_loading_gate 1736930000000 None "u1"
              "d1-0000-0000" (Some "John Doe") None None
              Scenarios.signature_blob Examples.loading_unsigned None
              (handleSaveSignature 1736930000000 None (Some "u1") "d1-0000-0000"
                 "shipper" (Some "John Doe") None None Scenarios.signature_blob
                 Examples.loading_unsigned).2 eq_refl)
    as (Hg & _ & _ & Hret).
  split; [exact Hg|]. apply Hret.
  intros i Hi. by eexists _, _.
Defined.
End SignatureFacts.

Section SignatureFetchFacts.
Import Supabase CmrActions Lifecycle Transitions SignatureUpload.

Ltac run_fetch :=
  cbv beta iota zeta delta
    [fetchCmrSignature select_latest_signature
     Supabase.request Supabase.try_catch
     mbind mret async_bind async_ret Supabase.bind Supabase.ret
     Supabase.throw Supabase.ok Supabase.failed
     Supabase.data Supabase.error fst snd].

(** The fetch when the service performs the query. *)
Lemma fetch_signature_performed urlData cmrId partyType w gid gat :
  replies w (length (calls w)) = Performed gid gat →
  fetchCmrSignature urlData cmrId partyType w
  = (Returned
       ((λ row, {| data := row; url := urlData |})
          <$> head (Postgrest.order_desc CmrSignature.created_at
                      (selected cmrId partyType (db w)))),
     record_call (Select "cmr_signatures" (filters cmrId partyType)) w).
Proof.
  intros Hrep. run_fetch. rewrite Hrep. world_simpl.
  destruct (head _) as [row|]; [|done]. by destruct urlData.
Qed.

(** X27.  [fetchCmrSignature] sends one query and changes no store.  When
    the query is refused it throws "Failed to fetch signature: " and the
    service's message.  Otherwise it returns [null] exactly when the
    document has no signature of the party asked for (of any party, when
    none is asked for), and else one of those signatures, none of the
    others being more recent, with the signed URL it was given. *)
Theorem fetch_signature_returns_latest urlData cmrId partyType w :
  let out := fetchCmrSignature urlData cmrId partyType w in
  out.2 = record_call (Select "cmr_signatures" (filters cmrId partyType)) w
  ∧ match replies w (length (calls w)) with
    | Refused e =>
        out.1 = Threw (ThrowError ("Failed to fetch signature: " +:+ message e))
    | Performed _ _ =>
        let rows := selected cmrId partyType (db w) in
        (rows = [] ∧ out.1 = Returned None)
        ∨ ∃ row,
            out.1 = Returned (Some {| data := row; url := urlData |})
            ∧ row ∈ rows
            ∧ ∀ other, other ∈ rows →
                String.leb (CmrSignature.created_at other)
                           (CmrSignature.created_at row) = true
    end.
Proof.
  destruct (replies w (length (calls w))) as [e|gid gat] eqn:Hrep.
  - run_fetch. by rewrite Hrep.
  - rewrite (fetch_signature_performed _ _ _ _ _ _ Hrep). cbn [fst snd].
    split; [done|].
    pose proof (order_desc_head CmrSignature.created_at
                  (selected cmrId partyType (db w))) as Hh.
    destruct (head _) as [row|]; [right|left]; [|done].
    exists row. by destruct Hh.
Qed.

Lemma shipper_rows cmrId (d : Db) :
  selected cmrId (Some "shipper") d = shipper_signatures cmrId d.
Proof.
  unfold selected, shipper_signatures. apply list_filter_iff. intros s.
  cbn. tauto.
Qed.

(** X28.  The gate of [loading_end] and the lookup of the shipper's
    signature agree: when the service performs the query,
    [fetchCmrSignature] for the party [shipper] finds a signature exactly
    when the gate of [loading_end] is open for the document. *)
Theorem loading_gate_is_a_found_shipper_signature urlData cmrId w :
  (∃ gid gat, replies w (length (calls w)) = Performed gid gat) →
  (fetchCmrSignature urlData cmrId (Some "shipper") w).1 ≠ Returned None
  ↔ gate_open cmrId loading_end (db w).
Proof.
  intros (gid & gat & Hrep).
  rewrite (fetch_signature_performed _ _ _ _ _ _ Hrep). cbn [fst].
  rewrite shipper_rows. unfold gate_open.
  pose proof (order_desc_head CmrSignature.created_at
                (shipper_signatures cmrId (db w))) as Hh.
  destruct (head _) as [row|]; cbn.
  - destruct Hh as [Hin _]. split; [|done]. intros _ _ Hn.
    rewrite Hn in Hin. by apply not_elem_of_nil in Hin.
  - split; [done|]. intros Hg _. by apply Hg.
Qed.

Lemma loading_gate_is_a_found_shipper_signature_witness :
  (fetchCmrSignature None "d1-0000-0000" (Some "shipper") Examples.fresh_signed).1
  ≠ Returned None.
Proof.
  apply (loading_gate_is_a_found_shipper_signature None "d1-0000-0000"
           Examples.fresh_signed).
  - by eexists _, _.
  - intros _. vm_compute. discriminate.
Defined.
End SignatureFetchFacts.

(* --------------------------------------------------------------------- *)
(** ** The export: bottom margin and page numbers *)
(* --------------------------------------------------------------------- *)

Section GeometryFacts.
Import JsPdf PdfGenerator PageGeometry.
Local Open Scope Q_scope.
Context (rt : Runtime).

Lemma within_put limit op d :
  bottom op <= limit → within limit d → within limit (put op d).
Proof.
  unfold within, put. cbn [pages]. intros Hop H.
  apply Forall_alter; [done|]. intros p Hp HP.
  apply Forall_app. split; [done|]. by constructor.
Qed.

Lemma within_addPage limit d : within limit d → within limit (addPage d).
Proof.
  unfold within, addPage. cbn [pages]. intros H.
  apply Forall_app. split; [done|]. by repeat constructor.
Qed.

(** A line of text lands above the bottom margin, on a new page when the
    current one is full. *)
Lemma addText_within text fontSize isBold xOffset st :
  46 <= pageHeight rt →
  within (pageHeight rt - 26) (pdf st) →
  within (pageHeight rt - 26) (pdf (addText rt text fontSize isBold xOffset st).2)
  ∧ yPos (addText rt text fontSize isBold xOffset st).2 <= pageHeight rt - 20
  ∧ (length (pages (pdf st))
     ≤ length (pages (pdf (addText rt text fontSize isBold xOffset st).2))
     ≤ S (length (pages (pdf st))))%nat.
Proof.
  intros Hh Hw.
  destruct (helpers_check_first rt text fontSize isBold xOffset "" "" "" "" st)
    as (-> & _).
  cbn zeta. unfold checkPageBreak, Js.gt, lineHeight.
  destruct (Qle_bool (yPos st + 6) (pageHeight rt - 20)) eqn:E; cbn [negb snd pdf yPos].
  - apply Qle_bool_iff in E. split; [|split].
    + apply within_put; [cbn; lra|]. exact Hw.
    + lra.
    + unfold JsPdf.text, put, setFont, setFontSize. cbn [pages].
      rewrite length_alter. lia.
  - split; [|split].
    + apply within_put; [cbn; lra|]. by apply within_addPage.
    + lra.
    + unfold JsPdf.text, put, setFont, setFontSize, addPage. cbn [pages].
      rewrite length_alter, length_app. cbn [length]. lia.
Qed.

Lemma for_each_addText_within lines : ∀ st,
  46 <= pageHeight rt →
  within (pageHeight rt - 26) (pdf st) →
  let out := (for_each lines (fun line => addText rt line 9 false 0) st).2 in
  within (pageHeight rt - 26) (pdf out)
  ∧ (lines ≠ [] → yPos out <= pageHeight rt - 20)
  ∧ (length (pages (pdf st)) ≤ length (pages (pdf out))
     ≤ length (pages (pdf st)) + length lines)%nat.
Proof.
  induction lines as [|l lines IH]; intros st Hh Hw; cbn zeta.
  - cbn. split; [done|]. split; [done|lia].
  - cbn [for_each]. unfold mbind, gen_bind.
    destruct (addText_within l 9 false 0 st Hh Hw) as (Hw1 & Hy1 & Hp1).
    destruct (addText rt l 9 false 0 st) as [[] st1]. cbn [snd] in *.
    destruct (IH st1 Hh Hw1) as (Hw2 & Hy2 & Hp2). cbn zeta in *.
    split; [done|]. split.
    + intros _. destruct (decide (lines = [])) as [->|Hne];
        [cbn [for_each]; exact Hy1|].
      by apply Hy2.
    + cbn [length]. lia.
Qed.

(** X29.  Wrapped text never runs past the bottom margin, however many
    lines it has: on a page at least 46 mm high, if nothing drawn so far
    reaches below the page height minus 26, nothing does after
    [addWrapped]; the text goes on to new pages, at most one per line,
    and the cursor ends at or above the page height minus 20. *)
Theorem wrapped_text_stays_above_margin text width st :
  46 <= pageHeight rt →
  within (pageHeight rt - 26) (pdf st) →
  let lines := splitTextToSize rt (font (pdf st)) text width in
  let out := (addWrapped rt text width st).2 in
  within (pageHeight rt - 26) (pdf out)
  ∧ (lines ≠ [] → yPos out <= pageHeight rt - 20)
  ∧ (length (pages (pdf st)) ≤ length (pages (pdf out))
     ≤ length (pages (pdf st)) + length lines)%nat.
Proof.
  intros Hh Hw. cbn zeta. unfold addWrapped, splitText, mbind, gen_bind.
  apply for_each_addText_within; done.
Qed.

(** X30.  Every page of the export ends with the legal notice and the
    line "Generated on ... - Page i of n", where [i] is the position of
    the page and [n] the number of pages of the export. *)
Theorem every_page_is_numbered clock o k page :
  let export := generateCmrPdf rt clock o in
  pages export !! k = Some page →
  (k < numberOfPages export)%nat
  ∧ ∃ content,
      page = content
             ++ [legalNotice rt;
                 stamp rt (formatDate rt LongDateTime (clock (S k))) (S k)
                   (numberOfPages export)].
Proof.
  cbn zeta. unfold numberOfPages. intros H.
  split; [by eapply lookup_lt_Some|].
  revert H. rewrite generate_pages. cbn zeta.
  rewrite length_imap, list_lookup_imap.
  destruct (pages _ !! k) as [content|]; [|done].
  cbn. intros [= <-]. by exists content.
Qed.
End GeometryFacts.

Section GeometryOnExamples.
Import JsPdf PdfGenerator PageGeometry.
Local Open Scope Q_scope.

Lemma wrapped_text_stays_above_margin_witness :
  within (297 - 26)
    (pdf (addWrapped Examples.runtime "Address: 1 rue de Lyon, Paris" 180
            Scenarios.blank_page).2).
Proof.
  apply (wrapped_text_stays_above_margin Examples.runtime
           "Address: 1 rue de Lyon, Paris" 180 Scenarios.blank_page).
  - cbn. lra.
  - repeat constructor.
Defined.

Lemma every_page_is_numbered_witness :
  let export :=
    generateCmrPdf Examples.runtime Examples.clock_a Examples.photo_unreachable in
  ∃ content,
    default [] (pages export !! 0%nat)
    = content ++ [legalNotice Examples.runtime;
                  stamp Examples.runtime "2025-01-17T12:00:00Z" 1
                    (numberOfPages export)].
Proof.
  cbn zeta.
  destruct (every_page_is_numbered Examples.runtime Examples.clock_a
              Examples.photo_unreachable 0
              (default [] (pages (generateCmrPdf Examples.runtime Examples.clock_a
                                    Examples.photo_unreachable) !! 0%nat)))
    as (_ & content & Hc).
  - vm_compute. reflexivity.
  - exists content. exact Hc.
Defined.
End GeometryOnExamples.
